(** * Weighted-wins NFL rankings: a shallow embedding of
    [scripts/calculate_rankings.py] and the properties of its ranking core.

    Conventions of the embedding.
    - A pandas [DataFrame] with the six schedule columns is the list of its
      rows, in index order; a [Series] is the list of its values.  Column
      expressions of the source ([df['c'] == v], [&], [|], [df[mask]]) are
      kept column-wise, as the source writes them.
    - A nullable numeric cell (pandas NaN / None) is an [option Z]; every
      comparison with a null cell is [False], as in pandas.
    - A Python [int] is a [Z].  A Python [float] is a [Q].  This is exact for
      the weighted scores and the total, which only ever hold sums of record
      counts (whole numbers, exact in binary64 below 2^53, and left unchanged
      by [round]).  It is not exact for the win percentage, whose binary64
      quotient and rounding the rationals only approximate: nothing below is
      stated about the numeric value of a win percentage.
    - Python's [set] has no specified iteration order; it is a duplicate-free
      list, and the results that depend on it are shown not to depend on the
      order chosen. *)

From Stdlib Require Import ZArith QArith Qabs Qround List String Ascii Bool.
From Stdlib Require Import Lia Lqa Permutation Sorted.
Import ListNotations.

Local Open Scope Z_scope.

(** ** The pandas operations the script uses *)

Module Pandas.

Definition Series (A : Type) : Type := list A.

(** [s.notna()] *)
Definition notna {A : Type} (s : Series (option A)) : Series bool :=
  map (fun v => match v with Some _ => true | None => false end) s.

(** [s == v] on a column of strings *)
Definition eq_str (s : Series string) (v : string) : Series bool :=
  map (fun x => String.eqb x v) s.

(** [s > v], [s < v], [s == v] on a nullable numeric column: a null cell
    compares [False]. *)
Definition gt (s : Series (option Z)) (v : Z) : Series bool :=
  map (fun x => match x with Some r => r >? v | None => false end) s.

Definition lt (s : Series (option Z)) (v : Z) : Series bool :=
  map (fun x => match x with Some r => r <? v | None => false end) s.

Definition eq_num (s : Series (option Z)) (v : Z) : Series bool :=
  map (fun x => match x with Some r => r =? v | None => false end) s.

(** [s <= v] on an integer column *)
Definition le (s : Series Z) (v : Z) : Series bool :=
  map (fun x => x <=? v) s.

(** [a & b] and [a | b] on boolean columns *)
Fixpoint band (a b : Series bool) : Series bool :=
  match a, b with
  | x :: a', y :: b' => (x && y) :: band a' b'
  | _, _ => []
  end.

Fixpoint bor (a b : Series bool) : Series bool :=
  match a, b with
  | x :: a', y :: b' => (x || y) :: bor a' b'
  | _, _ => []
  end.

(** [df[mask]]: the rows whose mask cell is [True].  Every mask of the
    script is computed from the frame it selects from, so the two have the
    same length. *)
Fixpoint loc {A : Type} (rows : list A) (mask : Series bool) : list A :=
  match rows, mask with
  | r :: rows', m :: mask' =>
      if m then r :: loc rows' mask' else loc rows' mask'
  | _, _ => []
  end.

(** [len(df)] *)
Definition len {A : Type} (rows : list A) : Z := Z.of_nat (List.length rows).

(** [s.unique()]: the distinct values, in order of first appearance *)
Fixpoint unique (s : Series string) : Series string :=
  match s with
  | [] => []
  | x :: s' => x :: filter (fun y => negb (String.eqb y x)) (unique s')
  end.

(** [s.max()] of a non-empty integer column *)
Definition max (first : Z) (rest : Series Z) : Z :=
  fold_left Z.max rest first.

End Pandas.

(** ** The Python built-ins the script uses *)

Module Py.

(** Truthiness of an [int] in [if x:] *)
Definition truthy (x : Z) : bool := negb (x =? 0).

(** A [set] of strings: a duplicate-free list in some order. *)
Definition set_of (l : list string) : list string := Pandas.unique l.

Definition mem (x : string) (s : list string) : bool :=
  existsb (String.eqb x) s.

(** [a | b] *)
Definition union (a b : list string) : list string :=
  a ++ filter (fun y => negb (mem y a)) b.

(** [sorted(xs)] on strings: ascending in the order of [str], which
    compares code points position by position. *)
Fixpoint insert_str (x : string) (l : list string) : list string :=
  match l with
  | [] => [x]
  | y :: l' => if String.leb x y then x :: l else y :: insert_str x l'
  end.

Definition sorted (l : list string) : list string :=
  fold_right insert_str [] l.

(** [round(x)] for a float: to the nearest integer, halves to the even
    neighbour.  Taken on the rational value. *)
Definition round_half_even (x : Q) : Z :=
  let f := Qfloor x in
  match Qcompare (x - inject_Z f) (1 # 2) with
  | Lt => f
  | Gt => f + 1
  | Eq => if Z.even f then f else f + 1
  end.

(** [round(x, ndigits)], taken on the rational value: the same number as
    Python's on the whole numbers the score fields hold, not in general on a
    binary64 quotient. *)
Definition round (x : Q) (ndigits : nat) : Q :=
  let scale := inject_Z (10 ^ Z.of_nat ndigits) in
  (inject_Z (round_half_even (x * scale)) / scale)%Q.

(** [a / b] on floats raises [ZeroDivisionError] when [b] is zero.  The
    quotient is the exact one; its binary64 rounding is not modelled. *)
Definition truediv (a b : Q) : option Q :=
  if Qeq_bool b 0 then None else Some (a / b)%Q.

(** [xs.sort(key=key, reverse=True)]: a stable sort, descending by key;
    elements with equal keys keep their order.  An element is inserted in
    front of the first element whose key is not strictly greater. *)
Section SortDesc.
Context {A : Type} (key : A -> Q).

Fixpoint insert_desc (x : A) (l : list A) : list A :=
  match l with
  | [] => [x]
  | y :: l' =>
      match Qcompare (key x) (key y) with
      | Lt => y :: insert_desc x l'
      | _ => x :: l
      end
  end.

Definition sort_desc (l : list A) : list A :=
  fold_right insert_desc [] l.
End SortDesc.

End Py.

(** ** Data model *)

(** One row of the schedule frame, with the six columns the script reads. *)
Record Game : Type := mkGame {
  week : Z;
  home_team : string;
  away_team : string;
  home_score : option Z;
  away_score : option Z;
  result : option Z
}.

Definition DataFrame : Type := list Game.

(** [df['c']] *)
Definition col {A : Type} (f : Game -> A) (df : DataFrame) : Pandas.Series A :=
  map f df.

(** The dictionary [{'wins': .., 'losses': .., 'ties': ..}]. *)
Record TeamRecord : Type := mkRecord {
  wins : Z;
  losses : Z;
  ties : Z
}.

(** One entry of the ranking list. *)
Record TeamRanking : Type := mkRanking {
  rk_team : string;
  rk_wins : Z;
  rk_losses : Z;
  rk_ties : Z;
  rk_win_pct : Q;
  rk_weighted_wins : Q;
  rk_weighted_losses : Q;
  rk_total : Q
}.

(** The week document handed to the writer. *)
Record Snapshot : Type := mkSnapshot {
  sn_timestamp : string;
  sn_week : Z;
  sn_season : Z;
  sn_rankings : list TeamRanking
}.

Definition CURRENT_SEASON : Z := 2025.

(** ** The script *)

(** [get_game_results]: [schedule[schedule['home_score'].notna()]] *)
Definition get_game_results (schedule : DataFrame) : DataFrame :=
  Pandas.loc schedule (Pandas.notna (col home_score schedule)).

(** [get_current_week]: 0 without completed games, else the largest week. *)
Definition get_current_week (schedule : DataFrame) : Z :=
  match get_game_results schedule with
  | [] => 0
  | g :: rest => Pandas.max (week g) (col week rest)
  end.

(** The three row selections of [get_team_record], as masks over a frame. *)
Definition wins_mask (completed : DataFrame) (team : string) : Pandas.Series bool :=
  Pandas.bor
    (Pandas.band (Pandas.eq_str (col home_team completed) team)
                 (Pandas.gt (col result completed) 0))
    (Pandas.band (Pandas.eq_str (col away_team completed) team)
                 (Pandas.lt (col result completed) 0)).

Definition losses_mask (completed : DataFrame) (team : string) : Pandas.Series bool :=
  Pandas.bor
    (Pandas.band (Pandas.eq_str (col home_team completed) team)
                 (Pandas.lt (col result completed) 0))
    (Pandas.band (Pandas.eq_str (col away_team completed) team)
                 (Pandas.gt (col result completed) 0)).

Definition ties_mask (completed : DataFrame) (team : string) : Pandas.Series bool :=
  Pandas.band
    (Pandas.bor (Pandas.eq_str (col home_team completed) team)
                (Pandas.eq_str (col away_team completed) team))
    (Pandas.eq_num (col result completed) 0).

(** The frame [get_team_record] counts over: the completed games, cut at
    [through_week] when the [if through_week:] test passes. *)
Definition games_through (schedule : DataFrame) (through_week : option Z) : DataFrame :=
  let completed := get_game_results schedule in
  match through_week with
  | Some w =>
      if Py.truthy w
      then Pandas.loc completed (Pandas.le (col week completed) w)
      else completed
  | None => completed
  end.

Definition get_team_record (schedule : DataFrame) (team : string)
    (through_week : option Z) : TeamRecord :=
  let completed := games_through schedule through_week in
  let wins := Pandas.len (Pandas.loc completed (wins_mask completed team)) in
  let losses := Pandas.len (Pandas.loc completed (losses_mask completed team)) in
  let ties := Pandas.len (Pandas.loc completed (ties_mask completed team)) in
  mkRecord wins losses ties.

(** [calculate_win_percentage]; [None] would be a [ZeroDivisionError].  The
    control flow is the source's; the value is the exact quotient, and the
    [OverflowError] of converting an [int] beyond the binary64 range is not
    modelled (the ranking only passes [len] counts). *)
Definition calculate_win_percentage (wins losses ties : Z) : option Q :=
  let total_games := wins + losses + ties in
  if total_games =? 0 then Some 0%Q
  else Py.truediv (inject_Z wins + (1 # 2) * inject_Z ties)%Q (inject_Z total_games).

(** [game['away_team'] if game['home_team'] == team else game['home_team']] *)
Definition opponent (team : string) (game : Game) : string :=
  if String.eqb (home_team game) team then away_team game else home_team game.

Definition calculate_weighted_wins (schedule : DataFrame) (team : string) : Q :=
  let completed := get_game_results schedule in
  let team_wins := Pandas.loc completed (wins_mask completed team) in
  fold_left
    (fun weighted_wins game =>
       let opp_record := get_team_record schedule (opponent team game) None in
       (weighted_wins + inject_Z (wins opp_record))%Q)
    team_wins 0%Q.

Definition calculate_weighted_losses (schedule : DataFrame) (team : string) : Q :=
  let completed := get_game_results schedule in
  let team_losses := Pandas.loc completed (losses_mask completed team) in
  fold_left
    (fun weighted_losses game =>
       let opp_record := get_team_record schedule (opponent team game) None in
       (weighted_losses - inject_Z (losses opp_record))%Q)
    team_losses 0%Q.

Definition calculate_total_score (weighted_wins weighted_losses : Q) : Q :=
  (weighted_wins + weighted_losses)%Q.

(** The body of the [for team in sorted(teams)] loop: one ranking entry.
    [None] stands for an exception escaping the body. *)
Definition rank_team (schedule : DataFrame) (team : string) : option TeamRanking :=
  let record := get_team_record schedule team None in
  match calculate_win_percentage (wins record) (losses record) (ties record) with
  | None => None
  | Some win_pct =>
      let weighted_wins := calculate_weighted_wins schedule team in
      let weighted_losses := calculate_weighted_losses schedule team in
      let total := calculate_total_score weighted_wins weighted_losses in
      Some (mkRanking team (wins record) (losses record) (ties record)
              (Py.round win_pct 3) (Py.round weighted_wins 2)
              (Py.round weighted_losses 2) (Py.round total 2))
  end.

(** The loop itself, appending to [rankings]. *)
Fixpoint rank_loop (schedule : DataFrame) (teams : list string)
    (rankings : list TeamRanking) : option (list TeamRanking) :=
  match teams with
  | [] => Some rankings
  | team :: rest =>
      match rank_team schedule team with
      | None => None
      | Some entry => rank_loop schedule rest (rankings ++ [entry])
      end
  end.

(** [calculate_all_rankings] from the point where the set [teams] exists;
    [teams] is the set in whatever order Python happens to enumerate it. *)
Definition rankings_over (schedule : DataFrame) (teams : list string)
    : option (list TeamRanking) :=
  match rank_loop schedule (Py.sorted teams) [] with
  | None => None
  | Some rankings => Some (Py.sort_desc rk_total rankings)
  end.

(** [set(completed['home_team'].unique()) | set(completed['away_team'].unique())] *)
Definition team_set (schedule : DataFrame) : list string :=
  let completed := get_game_results schedule in
  Py.union (Py.set_of (Pandas.unique (col home_team completed)))
           (Py.set_of (Pandas.unique (col away_team completed))).

Definition calculate_all_rankings (schedule : DataFrame) : option (list TeamRanking) :=
  rankings_over schedule (team_set schedule).

Definition format_team_ranking (team_data : TeamRanking) : TeamRanking :=
  mkRanking (rk_team team_data) (rk_wins team_data) (rk_losses team_data)
    (rk_ties team_data) (rk_win_pct team_data) (rk_weighted_wins team_data)
    (rk_weighted_losses team_data) (rk_total team_data).

(** [format_week_data]; [now] is the clock reading. *)
Definition format_week_data (now : string) (week : Z) (rankings : list TeamRanking)
    : Snapshot :=
  mkSnapshot now week CURRENT_SEASON (map format_team_ranking rankings).

(** What [fetch_nfl_data] hands over: the column names and the rows. *)
Record Fetched : Type := mkFetched {
  columns : list string;
  rows : DataFrame
}.

Definition required_fields : list string :=
  ["week"; "home_team"; "away_team"; "home_score"; "away_score"; "result"]%string.

Definition validate_data (schedule : Fetched) : bool :=
  let missing_fields :=
    filter (fun field => negb (Py.mem field (columns schedule))) required_fields in
  match missing_fields with
  | [] => true
  | _ => false
  end.

(** How a run of [main] ends.  Only the last two reach the writer. *)
Inductive RunOutcome : Type :=
| FetchFailed
| ValidationFailed
| EarlyExit (current_week : Z)
| Raised
| Saved (week_data : Snapshot)
| SaveFailed (week_data : Snapshot).

(** [main], with its three collaborators as arguments: the outcome of the
    fetch, the clock, and [save_json_snapshot]. *)
Definition main (fetched : option Fetched) (now : string)
    (save_json_snapshot : Snapshot -> Z -> bool) : RunOutcome :=
  match fetched with
  | None => FetchFailed
  | Some schedule =>
      if negb (validate_data schedule) then ValidationFailed
      else
        let current_week := get_current_week (rows schedule) in
        if current_week <? 2 then EarlyExit current_week
        else
          match calculate_all_rankings (rows schedule) with
          | None => Raised
          | Some rankings =>
              let week_data := format_week_data now current_week rankings in
              if save_json_snapshot week_data current_week
              then Saved week_data
              else SaveFailed week_data
          end
  end.

(** The snapshot a run handed to the writer, if any. *)
Definition snapshot_of (o : RunOutcome) : option Snapshot :=
  match o with
  | Saved d | SaveFailed d => Some d
  | _ => None
  end.

(** The outcomes [main] reports at error level or re-raises. *)
Definition is_error (o : RunOutcome) : bool :=
  match o with
  | FetchFailed | ValidationFailed | Raised | SaveFailed _ => true
  | EarlyExit _ | Saved _ => false
  end.

(** ** Fixtures of the test suite *)

Definition played (w : Z) (home away : string) (hs as_ : Z) : Game :=
  mkGame w home away (Some hs) (Some as_) (Some (hs - as_)).

Definition scheduled (w : Z) (home away : string) : Game :=
  mkGame w home away None None None.

(** [mock_week_2_schedule] *)
Definition mock_week_2_schedule : DataFrame :=
  [ played 1 "KC" "BAL" 27 20; played 1 "BUF" "NYJ" 24 17;
    played 2 "KC" "BUF" 28 21; played 2 "BAL" "NYJ" 21 14 ]%string.

(** [mock_schedule_incomplete] *)
Definition mock_schedule_incomplete : DataFrame :=
  [ played 1 "KC" "BAL" 27 20; played 1 "BUF" "NYJ" 24 17;
    scheduled 2 "KC" "BUF"; scheduled 2 "BAL" "NYJ" ]%string.

(** ** Row-wise readings of the column expressions *)

(** The outcome conditions of the specification, one row at a time. *)
Definition is_win (team : string) (g : Game) : bool :=
  match result g with
  | Some r =>
      (String.eqb (home_team g) team && (r >? 0))
      || (String.eqb (away_team g) team && (r <? 0))
  | None => false
  end.

Definition is_loss (team : string) (g : Game) : bool :=
  match result g with
  | Some r =>
      (String.eqb (home_team g) team && (r <? 0))
      || (String.eqb (away_team g) team && (r >? 0))
  | None => false
  end.

Definition is_tie (team : string) (g : Game) : bool :=
  match result g with
  | Some r =>
      (String.eqb (home_team g) team || String.eqb (away_team g) team) && (r =? 0)
  | None => false
  end.

Definition involves (team : string) (g : Game) : bool :=
  String.eqb (home_team g) team || String.eqb (away_team g) team.

(** A completed game in the words of the glossary: both scores present. *)
Definition both_scored (g : Game) : bool :=
  match home_score g, away_score g with
  | Some _, Some _ => true
  | _, _ => false
  end.

(** What the completed-games filter tests. *)
Definition home_scored (g : Game) : bool :=
  match home_score g with
  | Some _ => true
  | None => false
  end.

(** The number of rows of [l] that satisfy [p]. *)
Definition count (p : Game -> bool) (l : DataFrame) : Z :=
  Z.of_nat (List.length (filter p l)).

(** The data model's invariant on a row: [result] is the score difference,
    and is null when a score is. *)
Definition result_consistent (g : Game) : Prop :=
  result g =
    match home_score g, away_score g with
    | Some h, Some a => Some (h - a)
    | _, _ => None
    end.

(** A row with a home score and no away score passes the filter. *)
Definition half_scored_game : Game :=
  mkGame 1 "KC" "BAL" (Some 27) None None.

(** A season with one game played, in week 1. *)
Definition week_1_only : DataFrame := [ played 1 "KC" "BAL" 27 20 ]%string.

(** The columns of a well-formed schedule. *)
Definition schedule_columns : list string :=
  ["game_id"; "season"; "week"; "home_team"; "away_team";
   "home_score"; "away_score"; "result"]%string.

(** Whether a game lies within the bound, as the specification words it. *)
Definition in_range (through_week : option Z) (g : Game) : bool :=
  match through_week with
  | Some w => week g <=? w
  | None => true
  end.

Definition sum_Z (l : list Z) : Z := fold_right Z.add 0 l.

(** The games of the completed set that [team] won, and those it lost. *)
Definition games_won (schedule : DataFrame) (team : string) : DataFrame :=
  filter (is_win team) (get_game_results schedule).

Definition games_lost (schedule : DataFrame) (team : string) : DataFrame :=
  filter (is_loss team) (get_game_results schedule).

(** The full-season win and loss counts of the opponent in a game. *)
Definition opponent_wins (schedule : DataFrame) (team : string) (g : Game) : Z :=
  wins (get_team_record schedule (opponent team g) None).

Definition opponent_losses (schedule : DataFrame) (team : string) (g : Game) : Z :=
  losses (get_team_record schedule (opponent team g) None).

(** The value [calculate_win_percentage] returns. *)
Definition win_pct_value (wins losses ties : Z) : Q :=
  if wins + losses + ties =? 0 then 0%Q
  else ((inject_Z wins + (1 # 2) * inject_Z ties)
        / inject_Z (wins + losses + ties))%Q.

(** The entry the loop body builds for a team. *)
Definition ranking_entry (schedule : DataFrame) (team : string) : TeamRanking :=
  let record := get_team_record schedule team None in
  let weighted_wins := calculate_weighted_wins schedule team in
  let weighted_losses := calculate_weighted_losses schedule team in
  mkRanking team (wins record) (losses record) (ties record)
    (Py.round (win_pct_value (wins record) (losses record) (ties record)) 3)
    (Py.round weighted_wins 2) (Py.round weighted_losses 2)
    (Py.round (calculate_total_score weighted_wins weighted_losses) 2).

(** The order of team identifiers, as [str] compares them. *)
Definition str_le (a b : string) : Prop := String.leb a b = true.
Definition str_lt (a b : string) : Prop := String.ltb a b = true.

(** [a] may stand before [b] in a ranking: its key is not smaller, and with
    equal keys its name comes first. *)
Definition ranked_before {A : Type} (key : A -> Q) (name : A -> string)
    (a b : A) : Prop :=
  (key b <= key a)%Q /\ ((key a == key b)%Q -> str_lt (name a) (name b)).

(** The week numbers that have a completed game, each once. *)
Definition completed_weeks (schedule : DataFrame) : list Z :=
  nodup Z.eq_dec (col week (get_game_results schedule)).

(** A season played in order: when a week has a completed game, so has every
    week from 1 up to it. *)
Definition played_in_order (schedule : DataFrame) : Prop :=
  forall g, In g (get_game_results schedule) ->
  forall w, 1 <= w <= week g -> In w (completed_weeks schedule).

(** The completed games of the glossary: the rows with both scores. *)
Definition completed_games (schedule : DataFrame) : DataFrame :=
  filter both_scored schedule.


(** A season whose only completed game lies in week 3. *)
Definition week_3_only : DataFrame := [ played 3 "KC" "BAL" 27 20 ]%string.

(** A frame with the schedule columns and no row. *)
Definition empty_frame : Fetched := mkFetched schedule_columns [].

(** ** The fetch with retries *)

Definition MAX_RETRIES : Z := 3.
Definition RETRY_DELAY : Z := 2.

(** What one call of [nfl.import_schedules([season])] does: it raises, it
    returns [None], or it returns a frame. *)
Inductive ImportOutcome : Type :=
| ImportRaises
| ImportNone
| ImportFrame (schedule : Fetched).

(** The effects of a fetch: how many calls of the import it made, and the
    [time.sleep] durations it took, in seconds and in order. *)
Record FetchLog : Type := mkFetchLog {
  import_calls : nat;
  sleeps : list Z
}.

(** [df.empty]: an axis of length 0. *)
Definition frame_empty (schedule : Fetched) : bool :=
  match columns schedule, rows schedule with
  | [], _ => true
  | _, [] => true
  | _, _ => false
  end.

(** [range(n)] *)
Definition py_range (n : Z) : list Z :=
  map Z.of_nat (seq 0 (Z.to_nat n)).

(** The loop of [fetch_nfl_data] over the remaining attempts.  The import is
    an oracle: given the season and how many calls were made before, it says
    what the next call does. *)
Fixpoint fetch_attempts (import_schedules : Z -> nat -> ImportOutcome)
    (season : Z) (attempts : list Z) (log : FetchLog)
    : option Fetched * FetchLog :=
  match attempts with
  | [] => (None, log)
  | attempt :: rest =>
      let called := mkFetchLog (S (import_calls log)) (sleeps log) in
      match import_schedules season (import_calls log) with
      | ImportNone => (None, called)
      | ImportFrame schedule =>
          if frame_empty schedule then (None, called) else (Some schedule, called)
      | ImportRaises =>
          if attempt <? MAX_RETRIES - 1 then
            let wait_time := RETRY_DELAY * 2 ^ attempt in
            fetch_attempts import_schedules season rest
              (mkFetchLog (S (import_calls log)) (sleeps log ++ [wait_time]))
          else (None, called)
      end
  end.

Definition fetch_nfl_data (import_schedules : Z -> nat -> ImportOutcome)
    (season : Z) : option Fetched * FetchLog :=
  fetch_attempts import_schedules season (py_range MAX_RETRIES) (mkFetchLog 0 []).

(** The games of the completed set that ended with a winner, and those that
    ended level. *)
Definition decided (g : Game) : bool :=
  match result g with
  | Some r => negb (r =? 0)
  | None => false
  end.

Definition level (g : Game) : bool :=
  match result g with
  | Some r => r =? 0
  | None => false
  end.

(** * Properties *)

Section PandasFacts.
Context {A : Type}.

Lemma band_map (p q : A -> bool) (l : list A) :
  Pandas.band (map p l) (map q l) = map (fun x => p x && q x) l.
Proof. induction l as [|x l IH]; simpl; [reflexivity | now rewrite IH]. Qed.

Lemma bor_map (p q : A -> bool) (l : list A) :
  Pandas.bor (map p l) (map q l) = map (fun x => p x || q x) l.
Proof. induction l as [|x l IH]; simpl; [reflexivity | now rewrite IH]. Qed.

Lemma loc_map (p : A -> bool) (l : list A) :
  Pandas.loc l (map p l) = filter p l.
Proof.
  induction l as [|x l IH]; simpl; [reflexivity|].
  destruct (p x); now rewrite IH.
Qed.
End PandasFacts.

Lemma get_game_results_filter (schedule : DataFrame) :
  get_game_results schedule = filter home_scored schedule.
Proof.
  unfold get_game_results, Pandas.notna, col.
  rewrite map_map. apply (loc_map home_scored).
Qed.

Lemma wins_mask_rows (completed : DataFrame) (team : string) :
  wins_mask completed team = map (is_win team) completed.
Proof.
  unfold wins_mask, col, Pandas.eq_str, Pandas.gt, Pandas.lt.
  rewrite !map_map, !band_map, bor_map.
  apply map_ext. intro g. unfold is_win.
  destruct (result g); [reflexivity|].
  now rewrite !andb_false_r.
Qed.

Lemma losses_mask_rows (completed : DataFrame) (team : string) :
  losses_mask completed team = map (is_loss team) completed.
Proof.
  unfold losses_mask, col, Pandas.eq_str, Pandas.gt, Pandas.lt.
  rewrite !map_map, !band_map, bor_map.
  apply map_ext. intro g. unfold is_loss.
  destruct (result g); [reflexivity|].
  now rewrite !andb_false_r.
Qed.

Lemma ties_mask_rows (completed : DataFrame) (team : string) :
  ties_mask completed team = map (is_tie team) completed.
Proof.
  unfold ties_mask, col, Pandas.eq_str, Pandas.eq_num.
  rewrite !map_map, bor_map, band_map.
  apply map_ext. intro g. unfold is_tie.
  destruct (result g); [reflexivity|].
  now rewrite andb_false_r.
Qed.

Lemma games_through_filter (schedule : DataFrame) (through_week : option Z) :
  games_through schedule through_week =
    match through_week with
    | Some w =>
        if w =? 0 then get_game_results schedule
        else filter (fun g => week g <=? w) (get_game_results schedule)
    | None => get_game_results schedule
    end.
Proof.
  unfold games_through, Py.truthy. destruct through_week as [w|]; [|reflexivity].
  destruct (w =? 0); simpl; [reflexivity|].
  unfold Pandas.le, col. rewrite map_map.
  apply (loc_map (fun g => week g <=? w)).
Qed.

Lemma get_team_record_counts (schedule : DataFrame) (team : string)
    (through_week : option Z) :
  get_team_record schedule team through_week =
    mkRecord (count (is_win team) (games_through schedule through_week))
             (count (is_loss team) (games_through schedule through_week))
             (count (is_tie team) (games_through schedule through_week)).
Proof.
  unfold get_team_record, count, Pandas.len.
  now rewrite wins_mask_rows, losses_mask_rows, ties_mask_rows, !loc_map.
Qed.

Lemma count_nonneg (p : Game -> bool) (l : DataFrame) : 0 <= count p l.
Proof. unfold count. lia. Qed.


(** The row conditions, spelled out as propositions. *)
Lemma is_win_iff (team : string) (g : Game) :
  is_win team g = true <->
  exists r, result g = Some r /\
    ((home_team g = team /\ r > 0) \/ (away_team g = team /\ r < 0)).
Proof.
  unfold is_win. destruct (result g) as [r|].
  - rewrite orb_true_iff, !andb_true_iff, !String.eqb_eq, Z.gtb_gt, Z.ltb_lt.
    split.
    + intro H. exists r. split; [reflexivity | exact H].
    + intros (r' & E & H). injection E as <-. exact H.
  - split; [discriminate|]. intros (r & E & _). discriminate.
Qed.

Lemma is_loss_iff (team : string) (g : Game) :
  is_loss team g = true <->
  exists r, result g = Some r /\
    ((home_team g = team /\ r < 0) \/ (away_team g = team /\ r > 0)).
Proof.
  unfold is_loss. destruct (result g) as [r|].
  - rewrite orb_true_iff, !andb_true_iff, !String.eqb_eq, Z.gtb_gt, Z.ltb_lt.
    split.
    + intro H. exists r. split; [reflexivity | exact H].
    + intros (r' & E & H). injection E as <-. exact H.
  - split; [discriminate|]. intros (r & E & _). discriminate.
Qed.

Lemma is_tie_iff (team : string) (g : Game) :
  is_tie team g = true <->
  (home_team g = team \/ away_team g = team) /\ result g = Some 0.
Proof.
  unfold is_tie. destruct (result g) as [r|].
  - rewrite andb_true_iff, orb_true_iff, !String.eqb_eq, Z.eqb_eq.
    split.
    + intros [H ->]. now split.
    + intros [H E]. injection E as ->. now split.
  - split; [discriminate|]. intros [_ E]. discriminate.
Qed.

Lemma count_cons (p : Game -> bool) (g : Game) (l : DataFrame) :
  count p (g :: l) = Z.b2z (p g) + count p l.
Proof.
  unfold count. simpl. destruct (p g); simpl Z.b2z; simpl List.length; lia.
Qed.

Lemma count_filter (p q : Game -> bool) (l : DataFrame) :
  count p (filter q l) = count (fun g => q g && p g) l.
Proof.
  induction l as [|g l IH]; [reflexivity|].
  simpl filter. rewrite (count_cons (fun g => q g && p g)).
  destruct (q g); simpl andb.
  - now rewrite count_cons, IH.
  - now rewrite IH.
Qed.

Lemma count_ext (p q : Game -> bool) (l : DataFrame) :
  (forall g, In g l -> p g = q g) -> count p l = count q l.
Proof.
  intro H. induction l as [|g l IH]; [reflexivity|].
  rewrite !count_cons, (H g (or_introl eq_refl)), IH; [reflexivity|].
  intros g' Hg'. apply H. now right.
Qed.

Lemma count_split3 (p q r s : Game -> bool) (l : DataFrame) :
  (forall g, In g l -> Z.b2z (p g) + Z.b2z (q g) + Z.b2z (r g) = Z.b2z (s g)) ->
  count p l + count q l + count r l = count s l.
Proof.
  intro H. induction l as [|g l IH]; [reflexivity|].
  rewrite !count_cons.
  pose proof (H g (or_introl eq_refl)) as Hg.
  assert (IH' : count p l + count q l + count r l = count s l).
  { apply IH. intros g' Hg'. apply H. now right. }
  lia.
Qed.

(** Under the data model's invariant a row without both scores has no
    result, so a count of rows with a result is the same over the rows the
    filter keeps and over the rows with both scores. *)
Lemma count_completed_both_scored (p : Game -> bool) (schedule : DataFrame) :
  Forall result_consistent schedule ->
  (forall g, p g = true -> result g <> None) ->
  count p (get_game_results schedule) = count p (filter both_scored schedule).
Proof.
  intros Hwf Hp. rewrite get_game_results_filter, !count_filter.
  apply count_ext. intros g Hg.
  rewrite Forall_forall in Hwf. specialize (Hwf g Hg).
  unfold result_consistent in Hwf. unfold home_scored, both_scored.
  destruct (home_score g) as [h|]; [|reflexivity].
  destruct (away_score g) as [a|]; [reflexivity|].
  simpl. destruct (p g) eqn:E; [|reflexivity].
  now apply Hp in E.
Qed.

Lemma is_win_involves (team : string) (g : Game) :
  is_win team g = true \/ is_loss team g = true -> involves team g = true.
Proof.
  unfold is_win, is_loss, involves. destruct (result g) as [r|].
  - destruct (String.eqb (home_team g) team), (String.eqb (away_team g) team);
      simpl; intuition discriminate.
  - intuition discriminate.
Qed.



(** ** The completed-games filter *)

(** The filter is not the both-scores test of the glossary. *)
Lemma get_game_results_ignores_away_score :
  ~ (forall (schedule : DataFrame) (g : Game),
       In g (get_game_results schedule) <->
       In g schedule /\ home_score g <> None /\ away_score g <> None).
Proof.
  intro H.
  destruct (H [half_scored_game] half_scored_game) as [H1 _].
  destruct H1 as (_ & _ & Haway).
  - simpl. now left.
  - now apply Haway.
Qed.

(** C1 at a row with a home score and no away score: the filter keeps the
    row, so that its output holds a game whose [away_score] is null, against
    the docstring ("only completed games with results") and the assertion of
    the test suite that every kept row has an away score. *)
Theorem get_game_results_keeps_half_scored_row :
  get_game_results [half_scored_game; scheduled 2 "KC" "BUF"] = [half_scored_game] /\
  home_score half_scored_game = Some 27 /\
  away_score half_scored_game = None /\
  Pandas.notna (col away_score (get_game_results
                                  [half_scored_game; scheduled 2 "KC" "BUF"]))
    = [false].
Proof. repeat split. Qed.

(** On the rows where the two scores are null together, the filter keeps
    exactly the games with both scores. *)
Lemma get_game_results_paired_scores (schedule : DataFrame) :
  (forall g, In g schedule -> (home_score g = None <-> away_score g = None)) ->
  get_game_results schedule = completed_games schedule.
Proof.
  intro Hpair. rewrite get_game_results_filter. unfold completed_games.
  apply filter_ext_in. intros g Hg. specialize (Hpair g Hg).
  unfold home_scored, both_scored.
  destruct (home_score g), (away_score g); try reflexivity.
  destruct Hpair as [_ H]. specialize (H eq_refl). discriminate.
Qed.

Lemma get_game_results_paired_scores_witness :
  get_game_results mock_schedule_incomplete =
  completed_games mock_schedule_incomplete.
Proof.
  apply (get_game_results_paired_scores mock_schedule_incomplete).
  intros g Hg. simpl in Hg.
  destruct Hg as [<-|[<-|[<-|[<-|[]]]]]; simpl; split; congruence.
Defined.

(** ** The record calculator *)

(** The counts over the games with both scores, for rows that satisfy the
    data model. *)
Lemma get_team_record_both_scored (schedule : DataFrame) (team : string) :
  Forall result_consistent schedule ->
  get_team_record schedule team None =
    mkRecord (count (is_win team) (filter both_scored schedule))
             (count (is_loss team) (filter both_scored schedule))
             (count (is_tie team) (filter both_scored schedule)).
Proof.
  intro Hwf. rewrite get_team_record_counts, games_through_filter.
  f_equal; apply count_completed_both_scored; trivial;
    intros g; unfold is_win, is_loss, is_tie; destruct (result g); congruence.
Qed.



(** ** The week bound *)

(** Without a bound, and with any bound other than 0, the record counts the
    completed games within the bound. *)
Lemma get_team_record_through_week (schedule : DataFrame) (team : string)
    (through_week : option Z) :
  through_week <> Some 0 ->
  get_team_record schedule team through_week =
    let counted := filter (in_range through_week) (get_game_results schedule) in
    mkRecord (count (is_win team) counted) (count (is_loss team) counted)
             (count (is_tie team) counted).
Proof.
  intro Hw. cbv zeta. rewrite get_team_record_counts, games_through_filter.
  destruct through_week as [w|]; simpl in_range.
  - destruct (Z.eqb_spec w 0) as [->|_]; [congruence | reflexivity].
  - assert (E : forall l : DataFrame, filter (in_range None) l = l).
    { induction l as [|g l IH]; simpl; congruence. }
    now rewrite E.
Qed.

Lemma get_team_record_through_week_witness :
  get_team_record mock_week_2_schedule "KC" (Some 1) = mkRecord 1 0 0.
Proof.
  rewrite (get_team_record_through_week mock_week_2_schedule "KC" (Some 1));
    [reflexivity | discriminate].
Defined.

(** C8 at [through_week = 0]: the test [if through_week:] fails for 0, the
    bound is dropped, and the week-1 win is counted although no game has
    [week <= 0]. *)
Theorem through_week_zero_counts_every_week :
  get_team_record week_1_only "KC" (Some 0) = mkRecord 1 0 0 /\
  get_team_record week_1_only "KC" (Some 0) = get_team_record week_1_only "KC" None /\
  filter (in_range (Some 0)) (get_game_results week_1_only) = [].
Proof. repeat split. Qed.

(** X20: when no game pairs a team with itself and the rows satisfy the data
    model, every completed game within the bound that involves [team] is
    exactly one of a win, a loss and a tie, for every bound other than 0. *)
Lemma get_team_record_partitions (schedule : DataFrame) (team : string)
    (through_week : option Z) :
  Forall result_consistent schedule ->
  (forall g, In g schedule -> home_team g <> away_team g) ->
  through_week <> Some 0 ->
  let r := get_team_record schedule team through_week in
  wins r + losses r + ties r =
    count (fun g => in_range through_week g && involves team g)
          (filter both_scored schedule).
Proof.
  intros Hwf Hself Hw. cbv zeta.
  rewrite get_team_record_through_week by exact Hw. cbv zeta. simpl.
  rewrite get_game_results_filter.
  rewrite !(count_filter _ (in_range through_week)), !(count_filter _ home_scored).
  rewrite (count_filter _ both_scored).
  apply count_split3. intros g Hg.
  rewrite Forall_forall in Hwf. specialize (Hwf g Hg). specialize (Hself g Hg).
  unfold result_consistent in Hwf.
  unfold home_scored, both_scored, is_win, is_loss, is_tie, involves.
  rewrite Hwf.
  destruct (home_score g) as [h|]; [|reflexivity].
  destruct (away_score g) as [a|]; simpl andb.
  2:{ destruct (in_range through_week g); reflexivity. }
  destruct (in_range through_week g); [|reflexivity]. simpl andb.
  destruct (String.eqb_spec (home_team g) team) as [Eh|Nh];
    destruct (String.eqb_spec (away_team g) team) as [Ea|Na];
    [congruence| | |]; simpl;
    destruct (Z.gtb_spec (h - a) 0); destruct (Z.ltb_spec (h - a) 0);
    destruct (Z.eqb_spec (h - a) 0); simpl; lia.
Qed.

Lemma get_team_record_partitions_witness :
  let r := get_team_record mock_week_2_schedule "BUF" (Some 1) in
  wins r + losses r + ties r =
    count (fun g => in_range (Some 1) g && involves "BUF" g)
          (filter both_scored mock_week_2_schedule).
Proof.
  apply (get_team_record_partitions mock_week_2_schedule "BUF" (Some 1)).
  - repeat constructor.
  - intros g Hg. simpl in Hg.
    destruct Hg as [<-|[<-|[<-|[<-|[]]]]]; simpl; discriminate.
  - discriminate.
Defined.

(** C10 at [through_week = 0]: the record of KC adds up to one game, while
    no completed game involving KC has [week <= 0]. *)
Theorem through_week_zero_breaks_partition :
  (forall g, In g week_1_only -> home_team g <> away_team g) /\
  (let r := get_team_record week_1_only "KC" (Some 0) in
   wins r + losses r + ties r = 1) /\
  count (fun g => in_range (Some 0) g && involves "KC" g)
        (get_game_results week_1_only) = 0.
Proof.
  repeat split.
  intros g [<-|[]]. simpl. discriminate.
Qed.

(** ** Rounding *)

Lemma round_half_even_inject_Z (x : Q) (z : Z) :
  (x == inject_Z z)%Q -> Py.round_half_even x = z.
Proof.
  intro E. unfold Py.round_half_even.
  assert (F : Qfloor x = z) by (rewrite E; apply Qfloor_Z).
  rewrite F.
  assert (L : (x - inject_Z z ?= 1 # 2)%Q = Lt).
  { apply Qlt_alt. rewrite E. setoid_replace (inject_Z z - inject_Z z)%Q with 0%Q by ring.
    reflexivity. }
  now rewrite L.
Qed.

Lemma round_inject_Z (z : Z) (ndigits : nat) :
  (Py.round (inject_Z z) ndigits == inject_Z z)%Q.
Proof.
  unfold Py.round.
  assert (Hs : 0 < 10 ^ Z.of_nat ndigits) by (apply Z.pow_pos_nonneg; lia).
  rewrite (round_half_even_inject_Z _ (z * 10 ^ Z.of_nat ndigits))
    by (now rewrite inject_Z_mult).
  rewrite inject_Z_mult. field.
  intro E. unfold Qeq, inject_Z in E. simpl in E. lia.
Qed.

(** [round] moves a value by at most one half. *)
Lemma round_half_even_near (x : Q) :
  (Qabs (x - inject_Z (Py.round_half_even x)) <= 1 # 2)%Q.
Proof.
  unfold Py.round_half_even.
  pose proof (Qfloor_le x) as Hlo. pose proof (Qlt_floor x) as Hhi.
  rewrite inject_Z_plus in Hhi.
  change (inject_Z 1) with 1%Q in Hhi.
  destruct (Qcompare (x - inject_Z (Qfloor x)) (1 # 2)) eqn:E.
  - apply Qeq_alt in E.
    destruct (Z.even (Qfloor x)); [|rewrite inject_Z_plus; change (inject_Z 1) with 1%Q];
      revert Hlo Hhi E; generalize (inject_Z (Qfloor x)); intros q Hlo Hhi E;
      apply Qabs_Qle_condition; split; lra.
  - apply Qlt_alt in E.
    revert Hlo Hhi E; generalize (inject_Z (Qfloor x)); intros q Hlo Hhi E;
      apply Qabs_Qle_condition; split; lra.
  - apply Qgt_alt in E. rewrite inject_Z_plus; change (inject_Z 1) with 1%Q.
    revert Hlo Hhi E; generalize (inject_Z (Qfloor x)); intros q Hlo Hhi E;
      apply Qabs_Qle_condition; split; lra.
Qed.

(** Rounding the sum and summing the roundings differ by at most one unit
    of the second decimal, whatever the two values are. *)
Lemma round_sum_within_tolerance (x y : Q) :
  (Qabs (Py.round (x + y) 2 - (Py.round x 2 + Py.round y 2)) <= 1 # 100)%Q.
Proof.
  unfold Py.round. change (inject_Z (10 ^ Z.of_nat 2)) with (100 # 1)%Q.
  pose proof (round_half_even_near ((x + y) * (100 # 1))) as Ha.
  pose proof (round_half_even_near (x * (100 # 1))) as Hb.
  pose proof (round_half_even_near (y * (100 # 1))) as Hc.
  set (a := Py.round_half_even ((x + y) * (100 # 1))) in *.
  set (b := Py.round_half_even (x * (100 # 1))) in *.
  set (c := Py.round_half_even (y * (100 # 1))) in *.
  apply Qabs_Qle_condition in Ha, Hb, Hc.
  assert (Hd : (- (3 # 2) <= inject_Z (a - b - c) <= 3 # 2)%Q).
  { unfold Z.sub. rewrite !inject_Z_plus, !inject_Z_opp.
    revert Ha Hb Hc. generalize (inject_Z a) (inject_Z b) (inject_Z c).
    intros qa qb qc Ha Hb Hc. split; lra. }
  assert (Hz : -1 <= a - b - c <= 1).
  { destruct Hd as [H1 H2]. unfold Qle, inject_Z in H1, H2. simpl in H1, H2. lia. }
  setoid_replace (inject_Z a / (100 # 1) - (inject_Z b / (100 # 1) + inject_Z c / (100 # 1)))%Q
    with (inject_Z (a - b - c) / (100 # 1))%Q
    by (unfold Z.sub; rewrite !inject_Z_plus, !inject_Z_opp; field).
  apply Qabs_Qle_condition.
  assert (H1 : (inject_Z (-1) <= inject_Z (a - b - c))%Q) by (rewrite <- Zle_Qle; lia).
  assert (H2 : (inject_Z (a - b - c) <= inject_Z 1)%Q) by (rewrite <- Zle_Qle; lia).
  revert H1 H2. generalize (inject_Z (a - b - c)). intros q H1 H2.
  change (inject_Z (-1)) with (-1 # 1)%Q in H1. change (inject_Z 1) with 1%Q in H2.
  split.
  - apply Qle_shift_div_l; [reflexivity | lra].
  - apply Qle_shift_div_r; [reflexivity | lra].
Qed.

(** ** The score calculator: weighted wins and losses *)

Lemma Qplus_inject_Z (a b : Z) : (inject_Z a + inject_Z b)%Q = inject_Z (a + b).
Proof. unfold Qplus, inject_Z. simpl. f_equal. lia. Qed.

Lemma Qminus_inject_Z (a b : Z) : (inject_Z a - inject_Z b)%Q = inject_Z (a - b).
Proof. unfold Qminus, Qplus, Qopp, inject_Z. simpl. f_equal. lia. Qed.

Lemma fold_left_add_counts (f : Game -> Z) (l : DataFrame) (a : Z) :
  fold_left (fun acc g => (acc + inject_Z (f g))%Q) l (inject_Z a) =
  inject_Z (a + sum_Z (map f l)).
Proof.
  revert a. induction l as [|g l IH]; intro a; simpl.
  - f_equal. lia.
  - rewrite Qplus_inject_Z, IH. f_equal. lia.
Qed.

Lemma fold_left_sub_counts (f : Game -> Z) (l : DataFrame) (a : Z) :
  fold_left (fun acc g => (acc - inject_Z (f g))%Q) l (inject_Z a) =
  inject_Z (a - sum_Z (map f l)).
Proof.
  revert a. induction l as [|g l IH]; intro a; simpl.
  - f_equal. lia.
  - rewrite Qminus_inject_Z, IH. f_equal. lia.
Qed.

Lemma sum_Z_nonneg (l : list Z) : Forall (fun x => 0 <= x) l -> 0 <= sum_Z l.
Proof. induction 1; simpl; lia. Qed.

Lemma calculate_weighted_wins_sum (schedule : DataFrame) (team : string) :
  calculate_weighted_wins schedule team =
  inject_Z (sum_Z (map (opponent_wins schedule team) (games_won schedule team))).
Proof.
  unfold calculate_weighted_wins, games_won.
  rewrite wins_mask_rows, loc_map.
  change 0%Q with (inject_Z 0).
  apply (fold_left_add_counts (opponent_wins schedule team)).
Qed.

Lemma calculate_weighted_losses_sum (schedule : DataFrame) (team : string) :
  calculate_weighted_losses schedule team =
  inject_Z (0 - sum_Z (map (opponent_losses schedule team) (games_lost schedule team))).
Proof.
  unfold calculate_weighted_losses, games_lost.
  rewrite losses_mask_rows, loc_map.
  change 0%Q with (inject_Z 0).
  apply (fold_left_sub_counts (opponent_losses schedule team)).
Qed.

(** The opponent the loop resolves is the other side of the game. *)
Lemma opponent_other_side (team : string) (g : Game) :
  involves team g = true ->
  (home_team g = team /\ opponent team g = away_team g) \/
  (away_team g = team /\ home_team g <> team /\ opponent team g = home_team g).
Proof.
  unfold involves, opponent.
  destruct (String.eqb_spec (home_team g) team) as [Eh|Nh]; simpl.
  - intros _. now left.
  - intro Ea. apply String.eqb_eq in Ea. right. now repeat split.
Qed.






(** ** The score calculator: win percentage *)

(** The guard: the division is never reached with a zero denominator, for
    any three integers, and with no game the result is 0.0.  The value in
    the other case is the model's exact quotient. *)
Lemma calculate_win_percentage_returns (wins losses ties : Z) :
  calculate_win_percentage wins losses ties = Some (win_pct_value wins losses ties).
Proof.
  unfold calculate_win_percentage, win_pct_value, Py.truediv.
  destruct (Z.eqb_spec (wins + losses + ties) 0) as [E|N]; [reflexivity|].
  destruct (Qeq_bool (inject_Z (wins + losses + ties)) 0) eqn:Hz; [|reflexivity].
  apply Qeq_bool_eq in Hz. exfalso. apply N.
  unfold Qeq, inject_Z in Hz. simpl in Hz. lia.
Qed.

(** ** The order of team identifiers and [sorted] *)

Lemma ascii_compare_lt_trans (a b c : ascii) :
  Ascii.compare a b = Lt -> Ascii.compare b c = Lt -> Ascii.compare a c = Lt.
Proof.
  unfold Ascii.compare. rewrite !N.compare_lt_iff. apply N.lt_trans.
Qed.

Lemma string_compare_lt_trans (a b c : string) :
  String.compare a b = Lt -> String.compare b c = Lt -> String.compare a c = Lt.
Proof.
  revert b c. induction a as [|x a IH]; intros [|y b] [|z c]; simpl;
    try discriminate; try reflexivity.
  destruct (Ascii.compare x y) eqn:Exy; try discriminate;
    destruct (Ascii.compare y z) eqn:Eyz; try discriminate; intros H1 H2.
  - apply Ascii.compare_eq_iff in Exy, Eyz. subst.
    assert (Ezz : Ascii.compare z z = Eq).
    { unfold Ascii.compare. apply N.compare_refl. }
    rewrite Ezz. now apply (IH b c).
  - apply Ascii.compare_eq_iff in Exy. subst. now rewrite Eyz.
  - apply Ascii.compare_eq_iff in Eyz. subst. now rewrite Exy.
  - now rewrite (ascii_compare_lt_trans x y z Exy Eyz).
Qed.

Lemma str_le_cases (a b : string) : str_le a b <-> a = b \/ str_lt a b.
Proof.
  unfold str_le, str_lt, String.leb, String.ltb.
  destruct (String.compare a b) eqn:E; split; try discriminate; auto.
  - intros _. left. now apply String.compare_eq_iff.
  - intros [->|H]; [|discriminate].
    assert (R : String.compare b b = Eq).
    { clear E. induction b as [|x b IH]; simpl; [reflexivity|].
      unfold Ascii.compare. now rewrite N.compare_refl. }
    congruence.
Qed.

Lemma str_lt_trans (a b c : string) : str_lt a b -> str_lt b c -> str_lt a c.
Proof.
  unfold str_lt, String.ltb. intros H1 H2.
  destruct (String.compare a b) eqn:E1; try discriminate.
  destruct (String.compare b c) eqn:E2; try discriminate.
  now rewrite (string_compare_lt_trans a b c E1 E2).
Qed.

Lemma str_le_trans (a b c : string) : str_le a b -> str_le b c -> str_le a c.
Proof.
  rewrite !str_le_cases. intros [->|H1] [->|H2]; auto.
  right. now apply (str_lt_trans a b c).
Qed.

Lemma str_lt_irrefl (a : string) : ~ str_lt a a.
Proof.
  unfold str_lt, String.ltb. intro H.
  pose proof (String.compare_antisym a a) as E.
  destruct (String.compare a a); simpl in E; discriminate.
Qed.

Lemma insert_str_perm (x : string) (l : list string) :
  Permutation (Py.insert_str x l) (x :: l).
Proof.
  induction l as [|y l IH]; simpl; [reflexivity|].
  destruct (String.leb x y); [reflexivity|].
  rewrite IH. apply perm_swap.
Qed.

Lemma sorted_perm (l : list string) : Permutation (Py.sorted l) l.
Proof.
  induction l as [|x l IH]; simpl; [reflexivity|].
  rewrite insert_str_perm. now constructor.
Qed.

Lemma insert_str_sorted (x : string) (l : list string) :
  StronglySorted str_le l -> StronglySorted str_le (Py.insert_str x l).
Proof.
  induction 1 as [|y l Hl IH Hy]; simpl.
  - repeat constructor.
  - destruct (String.leb x y) eqn:E.
    + constructor; [now constructor|].
      constructor; [exact E|].
      eapply Forall_impl; [|exact Hy]. intros z Hz.
      now apply (str_le_trans x y z).
    + constructor; [exact IH|].
      apply (Permutation_Forall (Permutation_sym (insert_str_perm x l))).
      constructor; [|exact Hy].
      destruct (String.leb_total x y) as [H|H]; [congruence | exact H].
Qed.

Lemma sorted_sorted (l : list string) : StronglySorted str_le (Py.sorted l).
Proof.
  induction l as [|x l IH]; simpl; [constructor | now apply insert_str_sorted].
Qed.

(** Two ascending lists with the same elements are the same list. *)
Lemma ascending_unique (l1 l2 : list string) :
  StronglySorted str_le l1 -> StronglySorted str_le l2 ->
  Permutation l1 l2 -> l1 = l2.
Proof.
  intro H1. revert l2. induction H1 as [|x l1 Hl1 IH Hx]; intros l2 H2 HP.
  - apply Permutation_nil in HP. now subst.
  - destruct H2 as [|y l2 Hl2 Hy].
    + apply Permutation_sym, Permutation_nil in HP. discriminate.
    + assert (E : x = y).
      { apply String.leb_antisym.
        - assert (Hin : In y (x :: l1))
            by (apply (Permutation_in _ (Permutation_sym HP)); now left).
          destruct Hin as [->|Hin].
          + apply str_le_cases. now left.
          + rewrite Forall_forall in Hx. now apply Hx.
        - assert (Hin : In x (y :: l2))
            by (apply (Permutation_in _ HP); now left).
          destruct Hin as [->|Hin].
          + apply str_le_cases. now left.
          + rewrite Forall_forall in Hy. now apply Hy. }
      subst y. f_equal. apply IH; [exact Hl2|].
      now apply Permutation_cons_inv in HP.
Qed.

(** [sorted] does not depend on the order in which a set is enumerated. *)
Lemma sorted_enumeration (l1 l2 : list string) :
  Permutation l1 l2 -> Py.sorted l1 = Py.sorted l2.
Proof.
  intro HP. apply ascending_unique; try apply sorted_sorted.
  rewrite !sorted_perm. exact HP.
Qed.

Lemma ascending_nodup_strict (l : list string) :
  StronglySorted str_le l -> NoDup l -> StronglySorted str_lt l.
Proof.
  induction 1 as [|x l Hl IH Hx]; intro Hnd; [constructor|].
  inversion Hnd as [|x' l' Hnotin Hnd']; subst.
  constructor; [now apply IH|].
  rewrite Forall_forall in *. intros y Hy.
  destruct (proj1 (str_le_cases x y) (Hx y Hy)) as [->|H]; [contradiction | exact H].
Qed.

Lemma unique_in (x : string) (s : list string) :
  In x (Pandas.unique s) <-> In x s.
Proof.
  induction s as [|y s IH]; simpl; [reflexivity|].
  rewrite filter_In, IH, negb_true_iff, String.eqb_neq.
  destruct (string_dec y x) as [->|N]; [tauto|].
  split; [tauto|]. intros [E|H]; [contradiction|]. right. split; [exact H|congruence].
Qed.

Lemma unique_nodup (s : list string) : NoDup (Pandas.unique s).
Proof.
  induction s as [|y s IH]; simpl; constructor.
  - rewrite filter_In, negb_true_iff, String.eqb_neq. tauto.
  - now apply NoDup_filter.
Qed.

Lemma mem_in (x : string) (s : list string) : Py.mem x s = true <-> In x s.
Proof.
  unfold Py.mem. rewrite existsb_exists. split.
  - intros (y & Hy & E). apply String.eqb_eq in E. now subst.
  - intro H. exists x. split; [exact H | apply String.eqb_refl].
Qed.

Lemma union_nodup (a b : list string) :
  NoDup a -> NoDup b -> NoDup (Py.union a b).
Proof.
  intros Ha Hb. unfold Py.union. apply NoDup_app.
  - exact Ha.
  - now apply NoDup_filter.
  - intros x Hx Hf. rewrite filter_In, negb_true_iff in Hf.
    destruct Hf as [_ Hf]. apply mem_in in Hx. congruence.
Qed.

Lemma team_set_nodup (schedule : DataFrame) : NoDup (team_set schedule).
Proof. unfold team_set, Py.set_of. apply union_nodup; apply unique_nodup. Qed.

(** The team universe: the home and away identifiers of the completed games. *)
Lemma team_set_in (schedule : DataFrame) (team : string) :
  In team (team_set schedule) <->
  exists g, In g (get_game_results schedule) /\
            (home_team g = team \/ away_team g = team).
Proof.
  unfold team_set, Py.set_of, Py.union, col.
  rewrite in_app_iff, filter_In, !unique_in, !in_map_iff. split.
  - intros [(g & E & Hg)|[(g & E & Hg) _]]; exists g; auto.
  - intros (g & Hg & [E|E]).
    + left. now exists g.
    + destruct (Py.mem team (Pandas.unique (Pandas.unique
                  (map home_team (get_game_results schedule))))) eqn:M.
      * left. apply mem_in in M. rewrite !unique_in, in_map_iff in M. exact M.
      * right. split; [now exists g | reflexivity].
Qed.

(** ** The descending stable sort *)

Section SortDescFacts.
Context {A : Type} (key : A -> Q) (name : A -> string).

Lemma insert_desc_perm (x : A) (l : list A) :
  Permutation (Py.insert_desc key x l) (x :: l).
Proof.
  induction l as [|y l IH]; simpl; [reflexivity|].
  destruct (Qcompare (key x) (key y)); try reflexivity.
  rewrite IH. apply perm_swap.
Qed.

Lemma sort_desc_perm (l : list A) : Permutation (Py.sort_desc key l) l.
Proof.
  induction l as [|x l IH]; simpl; [reflexivity|].
  rewrite insert_desc_perm. now constructor.
Qed.

Lemma insert_desc_ranked (x : A) (l : list A) :
  StronglySorted (ranked_before key name) l ->
  Forall (fun y => str_lt (name x) (name y)) l ->
  StronglySorted (ranked_before key name) (Py.insert_desc key x l).
Proof.
  induction 1 as [|y l Hl IH Hy]; intro Hx; simpl.
  - repeat constructor.
  - inversion Hx as [|y' l' Hxy Hxl]; subst.
    destruct (Qcompare (key x) (key y)) eqn:E.
    + apply Qeq_alt in E.
      constructor; [now constructor|].
      constructor.
      * split; [lra | intros _; exact Hxy].
      * rewrite Forall_forall in *. intros z Hz.
        destruct (Hy z Hz) as [Hle _].
        split; [lra | intros _; now apply Hxl].
    + apply Qlt_alt in E.
      constructor; [now apply IH|].
      apply (Permutation_Forall (Permutation_sym (insert_desc_perm x l))).
      constructor; [|exact Hy].
      split; [lra | intro Heq; lra].
    + apply Qgt_alt in E.
      constructor; [now constructor|].
      constructor.
      * split; [lra | intros _; exact Hxy].
      * rewrite Forall_forall in *. intros z Hz.
        destruct (Hy z Hz) as [Hle _].
        split; [lra | intros _; now apply Hxl].
Qed.

Lemma sort_desc_ranked (l : list A) :
  StronglySorted (fun a b => str_lt (name a) (name b)) l ->
  StronglySorted (ranked_before key name) (Py.sort_desc key l).
Proof.
  induction 1 as [|x l Hl IH Hx]; simpl; [constructor|].
  apply insert_desc_ranked; [exact IH|].
  apply (Permutation_Forall (Permutation_sym (sort_desc_perm l))). exact Hx.
Qed.

End SortDescFacts.

Lemma StronglySorted_nth_error {A : Type} (R : A -> A -> Prop) (l : list A) :
  StronglySorted R l ->
  forall (i j : nat) (a b : A), (i < j)%nat ->
    nth_error l i = Some a -> nth_error l j = Some b -> R a b.
Proof.
  induction 1 as [|x l Hl IH Hx]; intros i j a b Hij Hi Hj.
  - destruct i; discriminate.
  - destruct j as [|j]; [lia|]. simpl in Hj.
    destruct i as [|i]; simpl in Hi.
    + injection Hi as <-. rewrite Forall_forall in Hx.
      apply Hx. now apply nth_error_In in Hj.
    + apply (IH i j); trivial. lia.
Qed.

Lemma StronglySorted_map {A B : Type} (f : A -> B) (R : B -> B -> Prop) (l : list A) :
  StronglySorted (fun a b => R (f a) (f b)) l -> StronglySorted R (map f l).
Proof.
  induction 1 as [|x l Hl IH Hx]; simpl; constructor; trivial.
  now rewrite Forall_map.
Qed.

(** ** The ranking engine *)

Lemma rank_team_returns (schedule : DataFrame) (team : string) :
  rank_team schedule team = Some (ranking_entry schedule team).
Proof.
  unfold rank_team. now rewrite calculate_win_percentage_returns.
Qed.

Lemma rank_loop_returns (schedule : DataFrame) (teams : list string)
    (rankings : list TeamRanking) :
  rank_loop schedule teams rankings =
  Some (rankings ++ map (ranking_entry schedule) teams).
Proof.
  revert rankings. induction teams as [|team rest IH]; intro rankings; simpl.
  - now rewrite app_nil_r.
  - rewrite rank_team_returns, IH, <- app_assoc. reflexivity.
Qed.

Lemma rankings_over_returns (schedule : DataFrame) (teams : list string) :
  rankings_over schedule teams =
  Some (Py.sort_desc rk_total (map (ranking_entry schedule) (Py.sorted teams))).
Proof. unfold rankings_over. now rewrite rank_loop_returns. Qed.

Lemma rankings_over_ranked (schedule : DataFrame) (teams : list string) :
  NoDup teams ->
  StronglySorted (ranked_before rk_total rk_team)
    (Py.sort_desc rk_total (map (ranking_entry schedule) (Py.sorted teams))).
Proof.
  intro Hnd. apply sort_desc_ranked. apply StronglySorted_map.
  change (StronglySorted str_lt (Py.sorted teams)).
  apply ascending_nodup_strict; [apply sorted_sorted|].
  apply (Permutation_NoDup (Permutation_sym (sorted_perm teams))). exact Hnd.
Qed.

(** C4: [calculate_all_rankings] returns a list that is descending by
    [total] at every adjacent pair, in which entries of equal [total] stand
    in the lexicographic order of their team identifiers, and which is the
    same for every order in which Python enumerates the set of teams. *)
Theorem calculate_all_rankings_sorted (schedule : DataFrame) :
  exists rankings : list TeamRanking,
    calculate_all_rankings schedule = Some rankings /\
    (forall i a b,
        nth_error rankings i = Some a -> nth_error rankings (S i) = Some b ->
        (rk_total b <= rk_total a)%Q) /\
    (forall i j a b, (i < j)%nat ->
        nth_error rankings i = Some a -> nth_error rankings j = Some b ->
        (rk_total a == rk_total b)%Q ->
        String.ltb (rk_team a) (rk_team b) = true) /\
    (forall enumeration, Permutation enumeration (team_set schedule) ->
        rankings_over schedule enumeration = Some rankings).
Proof.
  eexists. split; [apply rankings_over_returns|].
  pose proof (rankings_over_ranked schedule (team_set schedule)
                (team_set_nodup schedule)) as Hs.
  pose proof (StronglySorted_nth_error _ _ Hs) as Hnth.
  repeat split.
  - intros i a b Ha Hb. apply (Hnth i (S i) a b); trivial. lia.
  - intros i j a b Hij Ha Hb Heq. now apply (Hnth i j a b).
  - intros enumeration HP. rewrite rankings_over_returns.
    now rewrite (sorted_enumeration _ _ HP).
Qed.

Lemma calculate_all_rankings_sorted_witness :
  String.ltb "BAL" "BUF" = true.
Proof.
  destruct (calculate_all_rankings_sorted mock_week_2_schedule)
    as (rankings & Hr & _ & Hties & _).
  vm_compute in Hr. injection Hr as <-.
  apply (Hties 1%nat 2%nat
           (mkRanking "BAL" 1 1 0 (500 # 1000) (0 # 100) (0 # 100) (0 # 100))
           (mkRanking "BUF" 1 1 0 (500 # 1000) (0 # 100) (0 # 100) (0 # 100)));
    [lia | reflexivity | reflexivity | reflexivity].
Defined.

(** The formatter hands every entry on unchanged. *)
Lemma format_team_ranking_id (team_data : TeamRanking) :
  format_team_ranking team_data = team_data.
Proof. now destruct team_data. Qed.

Lemma format_week_data_rankings (now : string) (week : Z) (rankings : list TeamRanking) :
  sn_rankings (format_week_data now week rankings) = rankings.
Proof.
  unfold format_week_data. simpl.
  induction rankings as [|e l IH]; simpl; [reflexivity|].
  now rewrite format_team_ranking_id, IH.
Qed.

(** C6: in every entry of a ranking, and of the snapshot made from it, the
    three score fields are the two-decimal roundings of the unrounded weighted
    wins, weighted losses and their sum, and the emitted [total] equals the
    emitted [weighted_wins] plus the emitted [weighted_losses], hence lies
    within 0.01 of it. *)
Theorem ranking_total_is_sum (schedule : DataFrame) :
  exists rankings : list TeamRanking,
    calculate_all_rankings schedule = Some rankings /\
    forall (now : string) (week : Z) (e : TeamRanking),
      In e (sn_rankings (format_week_data now week rankings)) ->
      let ww := calculate_weighted_wins schedule (rk_team e) in
      let wl := calculate_weighted_losses schedule (rk_team e) in
      rk_weighted_wins e = Py.round ww 2 /\
      rk_weighted_losses e = Py.round wl 2 /\
      rk_total e = Py.round (calculate_total_score ww wl) 2 /\
      (rk_total e == rk_weighted_wins e + rk_weighted_losses e)%Q /\
      (Qabs (rk_total e - (rk_weighted_wins e + rk_weighted_losses e)) <= 1 # 100)%Q.
Proof.
  eexists. split; [apply rankings_over_returns|].
  intros now week e He. rewrite format_week_data_rankings in He.
  apply (Permutation_in _ (sort_desc_perm rk_total _)) in He.
  apply in_map_iff in He. destruct He as (team & <- & _).
  cbv zeta. unfold ranking_entry.
  cbn [rk_team rk_total rk_weighted_wins rk_weighted_losses].
  assert (E : (Py.round (calculate_total_score
                           (calculate_weighted_wins schedule team)
                           (calculate_weighted_losses schedule team)) 2 ==
               Py.round (calculate_weighted_wins schedule team) 2 +
               Py.round (calculate_weighted_losses schedule team) 2)%Q).
  { unfold calculate_total_score.
    rewrite calculate_weighted_wins_sum, calculate_weighted_losses_sum.
    rewrite Qplus_inject_Z, !round_inject_Z, inject_Z_plus. reflexivity. }
  repeat split; [exact E|].
  rewrite E. unfold Qminus. rewrite Qplus_opp_r. discriminate.
Qed.

Lemma ranking_total_is_sum_witness :
  exists e : TeamRanking,
    rk_team e = "KC"%string /\
    (rk_total e == rk_weighted_wins e + rk_weighted_losses e)%Q.
Proof.
  destruct (ranking_total_is_sum mock_week_2_schedule) as (rankings & Hr & Hsum).
  destruct rankings as [|e rest]; [vm_compute in Hr; discriminate|].
  exists e. split.
  - vm_compute in Hr. injection Hr as He _. now rewrite <- He.
  - destruct (Hsum "2025-09-16T00:00:00+00:00"%string 2 e) as (_ & _ & _ & H & _).
    + rewrite format_week_data_rankings. now left.
    + exact H.
Defined.

(** ** The gate of [main] *)

Lemma fold_left_max_ge (l : list Z) (a : Z) :
  a <= fold_left Z.max l a /\ Forall (fun x => x <= fold_left Z.max l a) l.
Proof.
  revert a. induction l as [|x l IH]; intro a; simpl.
  - split; [lia | constructor].
  - destruct (IH (Z.max a x)) as [H1 H2]. split; [lia|].
    constructor; [lia | exact H2].
Qed.

Lemma fold_left_max_in (l : list Z) (a : Z) :
  fold_left Z.max l a = a \/ In (fold_left Z.max l a) l.
Proof.
  revert a. induction l as [|x l IH]; intro a; simpl; [now left|].
  destruct (IH (Z.max a x)) as [E|H]; [|now right; right].
  rewrite E. destruct (Z.max_spec a x) as [[_ ->]|[_ ->]]; auto.
Qed.

(** [get_current_week] is 0 without completed games, and otherwise the
    largest week number of a completed game. *)
Lemma get_current_week_latest (schedule : DataFrame) :
  (get_game_results schedule = [] -> get_current_week schedule = 0) /\
  (get_game_results schedule <> [] ->
   (exists g, In g (get_game_results schedule) /\ week g = get_current_week schedule) /\
   (forall g, In g (get_game_results schedule) -> week g <= get_current_week schedule)).
Proof.
  unfold get_current_week, Pandas.max, col.
  destruct (get_game_results schedule) as [|g0 rest]; split; try congruence.
  intros _.
  destruct (fold_left_max_ge (map week rest) (week g0)) as [H0 Hall].
  split.
  - destruct (fold_left_max_in (map week rest) (week g0)) as [E|H].
    + exists g0. split; [now left | now rewrite E].
    + apply in_map_iff in H. destruct H as (g & E & Hg).
      exists g. split; [now right | exact E].
  - intros g [<-|Hg]; [exact H0|].
    rewrite Forall_map, Forall_forall in Hall. now apply Hall.
Qed.

(** X22: in a season played in order, fewer than two weeks with a completed
    game means that the latest completed week is below 2. *)
Lemma few_completed_weeks (schedule : DataFrame) :
  played_in_order schedule ->
  (List.length (completed_weeks schedule) < 2)%nat ->
  get_current_week schedule < 2.
Proof.
  intros Horder Hfew.
  destruct (Z.lt_ge_cases (get_current_week schedule) 2) as [H|H]; [exact H|].
  exfalso.
  destruct (get_current_week_latest schedule) as [Hnone Hsome].
  assert (Hne : get_game_results schedule <> []).
  { intro E. rewrite (Hnone E) in H. lia. }
  destruct (Hsome Hne) as [(g & Hg & Eg) _].
  assert (Hincl : incl [1; 2] (completed_weeks schedule)).
  { intros w [<-|[<-|[]]]; apply (Horder g Hg); lia. }
  assert (Hnd : NoDup [1; 2]).
  { repeat constructor; simpl; intuition lia. }
  pose proof (NoDup_incl_length Hnd Hincl) as Hlen. simpl in Hlen. lia.
Qed.

(** C9, as stated, fails twice.  A season whose only completed game lies
    in week 3 has fewer than two completed weeks, yet [main] ranks it and
    hands a snapshot to the writer; and an empty frame, which has no
    completed games at all, ends the fetch with [None], which [main] reports
    as an error. *)
Lemma main_ranks_single_late_week :
  (List.length (completed_weeks week_3_only) < 2)%nat /\
  validate_data (mkFetched schedule_columns week_3_only) = true /\
  snapshot_of (main (Some (mkFetched schedule_columns week_3_only))
                    "2025-09-23T00:00:00+00:00"%string (fun _ _ => true)) <> None /\
  get_game_results (rows empty_frame) = [] /\
  is_error (main (fst (fetch_nfl_data (fun _ _ => ImportFrame empty_frame)
                                      CURRENT_SEASON))
                 "2025-09-23T00:00:00+00:00"%string (fun _ _ => true)) = true.
Proof.
  split; [vm_compute; repeat constructor|].
  split; [reflexivity|]. split; [vm_compute; discriminate|].
  split; reflexivity.
Qed.

(** C9, amended: when the fetch returns a frame that passes validation and
    whose latest completed week, as [get_current_week] determines it (0 when
    no game is completed), is below 2, [main] returns early: it does not
    reach the ranking or the writer, whatever the writer would do, and the
    outcome is not an error. *)
Theorem main_early_exit (import_schedules : Z -> nat -> ImportOutcome)
    (schedule : Fetched) (now : string)
    (save_json_snapshot : Snapshot -> Z -> bool) :
  fst (fetch_nfl_data import_schedules CURRENT_SEASON) = Some schedule ->
  validate_data schedule = true ->
  get_game_results (rows schedule) = [] \/ get_current_week (rows schedule) < 2 ->
  let outcome :=
    main (fst (fetch_nfl_data import_schedules CURRENT_SEASON))
         now save_json_snapshot in
  outcome = EarlyExit (get_current_week (rows schedule)) /\
  snapshot_of outcome = None /\
  is_error outcome = false.
Proof.
  intros Hfetch Hvalid Hfew.
  assert (Hweek : get_current_week (rows schedule) < 2).
  { destruct Hfew as [Hnone|Hlt]; [|exact Hlt].
    rewrite (proj1 (get_current_week_latest (rows schedule)) Hnone). lia. }
  cbv zeta. rewrite Hfetch. unfold main. rewrite Hvalid. simpl negb. cbv iota.
  apply Z.ltb_lt in Hweek. rewrite Hweek. repeat split.
Qed.

Lemma main_early_exit_witness :
  let outcome :=
    main (fst (fetch_nfl_data
                 (fun _ _ => ImportFrame
                               (mkFetched schedule_columns mock_schedule_incomplete))
                 CURRENT_SEASON))
         "2025-09-09T00:00:00+00:00"%string (fun _ _ => true) in
  outcome = EarlyExit 1 /\ snapshot_of outcome = None /\ is_error outcome = false.
Proof.
  apply (main_early_exit
           (fun _ _ => ImportFrame
                         (mkFetched schedule_columns mock_schedule_incomplete))
           (mkFetched schedule_columns mock_schedule_incomplete)
           "2025-09-09T00:00:00+00:00"%string (fun _ _ => true)).
  - reflexivity.
  - reflexivity.
  - right. vm_compute. reflexivity.
Defined.

(** With two completed weeks the run goes on to the writer. *)
Lemma main_proceeds_from_week_2 (schedule : Fetched) (now : string)
    (save_json_snapshot : Snapshot -> Z -> bool) :
  validate_data schedule = true ->
  2 <= get_current_week (rows schedule) ->
  exists week_data,
    snapshot_of (main (Some schedule) now save_json_snapshot) = Some week_data /\
    sn_week week_data = get_current_week (rows schedule) /\
    calculate_all_rankings (rows schedule) = Some (sn_rankings week_data).
Proof.
  intros Hvalid Hweek. unfold main. rewrite Hvalid. simpl negb. cbv iota.
  destruct (Z.ltb_spec (get_current_week (rows schedule)) 2) as [?|_]; [lia|].
  unfold calculate_all_rankings. rewrite rankings_over_returns. eexists.
  split; [destruct (save_json_snapshot _ _); reflexivity|].
  split; [reflexivity|].
  now rewrite format_week_data_rankings.
Qed.

(** * Further properties of the script *)

(** ** What the completed-games filter lets through *)







(** X1: [get_current_week] returns [w] exactly when either no game has a
    home score and [w] is 0, or some game with a home score has week [w] and
    no game with a home score has a later week.  Games without a home score
    do not count, whatever their week. *)
Theorem get_current_week_is_latest_completed (schedule : DataFrame) (w : Z) :
  get_current_week schedule = w <->
  ((forall g, In g schedule -> home_score g = None) /\ w = 0) \/
  ((exists g, In g schedule /\ home_score g <> None /\ week g = w) /\
   (forall g, In g schedule -> home_score g <> None -> week g <= w)).
Proof.
  assert (Hin : forall g, In g (get_game_results schedule) <->
                          In g schedule /\ home_score g <> None).
  { intro g. rewrite get_game_results_filter, filter_In. unfold home_scored.
    destruct (home_score g); split; intros [? ?]; split; congruence. }
  destruct (get_current_week_latest schedule) as [Hnone Hsome].
  destruct (get_game_results schedule) as [|g0 rest] eqn:E.
  - rewrite (Hnone eq_refl). split.
    + intros <-. left. split; [|reflexivity].
      intros g Hg. destruct (home_score g) eqn:Hs; [|reflexivity].
      exfalso. apply (proj2 (Hin g)). split; [exact Hg | congruence].
    + intros [[_ ->]|[(g & Hg & Hs & _) _]]; [reflexivity|].
      exfalso. apply (proj2 (Hin g)). now split.
  - destruct Hsome as [(g & Hg & Hw) Hmax]; [discriminate|]. split.
    + intros <-. right. split.
      * exists g. apply Hin in Hg. tauto.
      * intros g' H1 H2. apply Hmax, Hin. now split.
    + intros [[Hall _]|[(g' & Hg' & Hs' & Hw') Hle]].
      * exfalso. destruct (proj1 (Hin g0) (or_introl eq_refl)) as [H1 H2].
        now apply H2, Hall.
      * apply Z.le_antisymm.
        -- rewrite <- Hw. apply Hin in Hg. now apply Hle.
        -- rewrite <- Hw'. apply Hmax, Hin. now split.
Qed.


(** ** Records of combined schedules *)

Lemma get_game_results_app (s1 s2 : DataFrame) :
  get_game_results (s1 ++ s2) = get_game_results s1 ++ get_game_results s2.
Proof. rewrite !get_game_results_filter. apply filter_app. Qed.

Lemma games_through_app (s1 s2 : DataFrame) (through_week : option Z) :
  games_through (s1 ++ s2) through_week =
  games_through s1 through_week ++ games_through s2 through_week.
Proof.
  rewrite !games_through_filter, get_game_results_app.
  destruct through_week as [w|]; [|reflexivity].
  destruct (w =? 0); [reflexivity | apply filter_app].
Qed.

Lemma count_app (p : Game -> bool) (l1 l2 : DataFrame) :
  count p (l1 ++ l2) = count p l1 + count p l2.
Proof. unfold count. rewrite filter_app, length_app. lia. Qed.

(** X3: records add up: the record of a team over two schedules put
    together is the field-wise sum of its records over each, for every week
    bound. *)
Theorem get_team_record_additive (s1 s2 : DataFrame) (team : string)
    (through_week : option Z) :
  let r := get_team_record (s1 ++ s2) team through_week in
  let r1 := get_team_record s1 team through_week in
  let r2 := get_team_record s2 team through_week in
  wins r = wins r1 + wins r2 /\
  losses r = losses r1 + losses r2 /\
  ties r = ties r1 + ties r2.
Proof.
  cbv zeta. rewrite !get_team_record_counts, games_through_app. simpl.
  now rewrite !count_app.
Qed.

(** ** The ranking does not depend on the order of the rows *)

Lemma filter_permutation {A : Type} (p : A -> bool) (l l' : list A) :
  Permutation l l' -> Permutation (filter p l) (filter p l').
Proof.
  induction 1 as [|x l l' _ IH|x y l|l1 l2 l3 _ IH1 _ IH2]; simpl.
  - constructor.
  - destruct (p x); [now constructor | exact IH].
  - destruct (p x), (p y); try reflexivity. apply perm_swap.
  - now transitivity (filter p l2).
Qed.

Lemma sum_Z_permutation (l l' : list Z) :
  Permutation l l' -> sum_Z l = sum_Z l'.
Proof. induction 1; simpl; lia. Qed.

Lemma games_through_permutation (s s' : DataFrame) (through_week : option Z) :
  Permutation s s' ->
  Permutation (games_through s through_week) (games_through s' through_week).
Proof.
  intro HP. rewrite !games_through_filter, !get_game_results_filter.
  destruct through_week as [w|]; [destruct (w =? 0)|];
    repeat apply filter_permutation; exact HP.
Qed.

Lemma count_permutation (p : Game -> bool) (l l' : DataFrame) :
  Permutation l l' -> count p l = count p l'.
Proof.
  intro HP. unfold count.
  now rewrite (Permutation_length (filter_permutation p l l' HP)).
Qed.

Lemma get_team_record_permutation (s s' : DataFrame) (team : string)
    (through_week : option Z) :
  Permutation s s' ->
  get_team_record s team through_week = get_team_record s' team through_week.
Proof.
  intro HP. rewrite !get_team_record_counts.
  pose proof (games_through_permutation s s' through_week HP) as HG.
  f_equal; now apply count_permutation.
Qed.

Lemma ranking_entry_permutation (s s' : DataFrame) (team : string) :
  Permutation s s' -> ranking_entry s team = ranking_entry s' team.
Proof.
  intro HP.
  assert (HC : Permutation (get_game_results s) (get_game_results s')).
  { rewrite !get_game_results_filter. now apply filter_permutation. }
  assert (Hw : calculate_weighted_wins s team = calculate_weighted_wins s' team).
  { rewrite !calculate_weighted_wins_sum. f_equal. apply sum_Z_permutation.
    unfold games_won.
    rewrite (map_ext (opponent_wins s team) (opponent_wins s' team)).
    - apply Permutation_map. now apply filter_permutation.
    - intro g. unfold opponent_wins. now rewrite (get_team_record_permutation s s'). }
  assert (Hl : calculate_weighted_losses s team = calculate_weighted_losses s' team).
  { rewrite !calculate_weighted_losses_sum. do 2 f_equal. apply sum_Z_permutation.
    unfold games_lost.
    rewrite (map_ext (opponent_losses s team) (opponent_losses s' team)).
    - apply Permutation_map. now apply filter_permutation.
    - intro g. unfold opponent_losses. now rewrite (get_team_record_permutation s s'). }
  unfold ranking_entry.
  now rewrite Hw, Hl, (get_team_record_permutation s s' team None HP).
Qed.

Lemma team_set_permutation (s s' : DataFrame) :
  Permutation s s' -> Permutation (team_set s) (team_set s').
Proof.
  intro HP. apply NoDup_Permutation; try apply team_set_nodup.
  assert (HC : Permutation (get_game_results s) (get_game_results s')).
  { rewrite !get_game_results_filter. now apply filter_permutation. }
  intro t. rewrite !team_set_in.
  split; intros (g & Hg & H); exists g; split; trivial.
  - now apply (Permutation_in _ HC).
  - now apply (Permutation_in _ (Permutation_sym HC)).
Qed.

(** X4: the ranking does not depend on the order of the rows of the
    schedule: two schedules with the same rows in any order give the same
    list, entry for entry. *)
Theorem calculate_all_rankings_row_order (s s' : DataFrame) :
  Permutation s s' ->
  calculate_all_rankings s = calculate_all_rankings s'.
Proof.
  intro HP. unfold calculate_all_rankings. rewrite !rankings_over_returns.
  rewrite (sorted_enumeration _ _ (team_set_permutation s s' HP)).
  do 2 f_equal. apply map_ext. intro t. now apply ranking_entry_permutation.
Qed.

Lemma calculate_all_rankings_row_order_witness :
  calculate_all_rankings (rev mock_week_2_schedule) =
  calculate_all_rankings mock_week_2_schedule.
Proof.
  apply (calculate_all_rankings_row_order (rev mock_week_2_schedule)
           mock_week_2_schedule).
  apply Permutation_sym, Permutation_rev.
Defined.

(** ** Who is ranked *)

Lemma ranking_teams_permutation (schedule : DataFrame) (teams : list string) :
  Permutation
    (map rk_team (Py.sort_desc rk_total
                    (map (ranking_entry schedule) (Py.sorted teams))))
    teams.
Proof.
  rewrite (Permutation_map rk_team (sort_desc_perm rk_total _)).
  rewrite map_map. simpl. rewrite map_id. apply sorted_perm.
Qed.

(** X5: the ranking has exactly one entry for every team that is the home
    or the away side of a completed game, and no other entry; a team whose
    games are all unplayed is not ranked. *)
Theorem calculate_all_rankings_teams (schedule : DataFrame) :
  exists rankings : list TeamRanking,
    calculate_all_rankings schedule = Some rankings /\
    NoDup (map rk_team rankings) /\
    (forall team,
        In team (map rk_team rankings) <->
        exists g, In g schedule /\ home_score g <> None /\
                  (home_team g = team \/ away_team g = team)).
Proof.
  eexists. split; [apply rankings_over_returns|].
  pose proof (ranking_teams_permutation schedule (team_set schedule)) as HP.
  split.
  - apply (Permutation_NoDup (Permutation_sym HP)), team_set_nodup.
  - intro team. split.
    + intro H. apply (Permutation_in _ HP) in H. apply team_set_in in H.
      destruct H as (g & Hg & Hside). exists g.
      rewrite get_game_results_filter, filter_In in Hg. unfold home_scored in Hg.
      destruct Hg as [Hg Hs]. repeat split; trivial.
      destruct (home_score g); congruence.
    + intros (g & Hg & Hs & Hside).
      apply (Permutation_in _ (Permutation_sym HP)). apply team_set_in.
      exists g. split; [|exact Hside].
      rewrite get_game_results_filter, filter_In. split; [exact Hg|].
      unfold home_scored. destruct (home_score g); congruence.
Qed.

(** ** The week bound, again *)

Lemma count_le (p q : Game -> bool) (l : DataFrame) :
  (forall g, In g l -> p g = true -> q g = true) -> count p l <= count q l.
Proof.
  intro H. induction l as [|g l IH]; [reflexivity|].
  rewrite !count_cons.
  assert (IH' : count p l <= count q l).
  { apply IH. intros g' Hg'. apply H. now right. }
  pose proof (H g (or_introl eq_refl)) as Hg.
  destruct (p g), (q g); simpl Z.b2z; try lia;
    specialize (Hg eq_refl); discriminate.
Qed.

Lemma games_through_in_range (schedule : DataFrame) (through_week : option Z) :
  through_week <> Some 0 ->
  games_through schedule through_week =
  filter (in_range through_week) (get_game_results schedule).
Proof.
  intro Hw. rewrite games_through_filter.
  destruct through_week as [w|]; simpl in_range.
  - destruct (Z.eqb_spec w 0) as [->|_]; [congruence | reflexivity].
  - induction (get_game_results schedule) as [|g l IH]; simpl; congruence.
Qed.

(** X6: a record never shrinks when the week bound grows: for bounds
    [w1 <= w2] other than 0, each of wins, losses and ties through [w1] is at
    most the count through [w2], which is at most the unbounded count. *)
Theorem get_team_record_week_monotone (schedule : DataFrame) (team : string)
    (w1 w2 : Z) :
  w1 <> 0 -> w2 <> 0 -> w1 <= w2 ->
  let r1 := get_team_record schedule team (Some w1) in
  let r2 := get_team_record schedule team (Some w2) in
  let r := get_team_record schedule team None in
  (0 <= wins r1 <= wins r2 /\ wins r2 <= wins r) /\
  (0 <= losses r1 <= losses r2 /\ losses r2 <= losses r) /\
  (0 <= ties r1 <= ties r2 /\ ties r2 <= ties r).
Proof.
  intros H1 H2 Hle. cbv zeta. rewrite !get_team_record_counts.
  rewrite (games_through_in_range schedule (Some w1)) by congruence.
  rewrite (games_through_in_range schedule (Some w2)) by congruence.
  rewrite (games_through_in_range schedule None) by congruence.
  simpl wins. simpl losses. simpl ties. rewrite !count_filter.
  repeat split; try apply count_nonneg; apply count_le; intros g _;
    simpl in_range; rewrite ?andb_true_iff, ?Z.leb_le; intuition lia.
Qed.

Lemma get_team_record_week_monotone_witness :
  let r1 := get_team_record mock_week_2_schedule "KC" (Some 1) in
  let r2 := get_team_record mock_week_2_schedule "KC" (Some 2) in
  let r := get_team_record mock_week_2_schedule "KC" None in
  (0 <= wins r1 <= wins r2 /\ wins r2 <= wins r) /\
  (0 <= losses r1 <= losses r2 /\ losses r2 <= losses r) /\
  (0 <= ties r1 <= ties r2 /\ ties r2 <= ties r).
Proof.
  apply (get_team_record_week_monotone mock_week_2_schedule "KC" 1 2); lia.
Defined.

(** X7: a bound at or beyond the current week changes nothing: for a bound
    other than 0 that is at least [get_current_week], the bounded record is
    the unbounded one. *)
Theorem get_team_record_through_current_week (schedule : DataFrame)
    (team : string) (w : Z) :
  w <> 0 -> get_current_week schedule <= w ->
  get_team_record schedule team (Some w) = get_team_record schedule team None.
Proof.
  intros Hw Hcur. rewrite !get_team_record_counts.
  rewrite (games_through_in_range schedule (Some w)) by congruence.
  rewrite (games_through_in_range schedule None) by congruence.
  assert (E : filter (in_range (Some w)) (get_game_results schedule) =
              filter (in_range None) (get_game_results schedule)).
  { apply filter_ext_in. intros g Hg. simpl. apply Z.leb_le.
    destruct (get_current_week_latest schedule) as [_ Hsome].
    destruct Hsome as [_ Hmax]; [intro E; rewrite E in Hg; contradiction|].
    specialize (Hmax g Hg). lia. }
  now rewrite E.
Qed.

Lemma get_team_record_through_current_week_witness :
  get_team_record mock_week_2_schedule "BUF" (Some 5) =
  get_team_record mock_week_2_schedule "BUF" None.
Proof.
  apply (get_team_record_through_current_week mock_week_2_schedule "BUF" 5).
  - lia.
  - vm_compute. discriminate.
Defined.

(** ** What a ranking entry carries *)

Lemma ranking_entries (schedule : DataFrame) (e : TeamRanking) :
  In e (Py.sort_desc rk_total
          (map (ranking_entry schedule) (Py.sorted (team_set schedule)))) ->
  In (rk_team e) (team_set schedule) /\ e = ranking_entry schedule (rk_team e).
Proof.
  intro He. apply (Permutation_in _ (sort_desc_perm rk_total _)) in He.
  apply in_map_iff in He. destruct He as (team & <- & Ht).
  split; [|reflexivity].
  simpl. now apply (Permutation_in _ (sorted_perm _)).
Qed.

(** X8: over rows that satisfy the data model, every entry of a ranking
    carries the unbounded record of its team, and its wins, losses and ties
    are the numbers of games with both scores that the team won, lost and
    tied. *)
Theorem ranking_entry_carries_record (schedule : DataFrame) :
  Forall result_consistent schedule ->
  exists rankings : list TeamRanking,
    calculate_all_rankings schedule = Some rankings /\
    forall e, In e rankings ->
      mkRecord (rk_wins e) (rk_losses e) (rk_ties e) =
        get_team_record schedule (rk_team e) None /\
      rk_wins e = count (is_win (rk_team e)) (completed_games schedule) /\
      rk_losses e = count (is_loss (rk_team e)) (completed_games schedule) /\
      rk_ties e = count (is_tie (rk_team e)) (completed_games schedule).
Proof.
  intro Hwf. eexists. split; [apply rankings_over_returns|].
  intros e He. apply ranking_entries in He. destruct He as [_ He].
  rewrite He. unfold ranking_entry.
  cbn [rk_wins rk_losses rk_ties rk_team].
  rewrite (get_team_record_both_scored schedule _ Hwf).
  repeat split.
Qed.

Lemma ranking_entry_carries_record_witness :
  exists rankings : list TeamRanking,
    calculate_all_rankings mock_week_2_schedule = Some rankings /\
    forall e, In e rankings ->
      mkRecord (rk_wins e) (rk_losses e) (rk_ties e) =
        get_team_record mock_week_2_schedule (rk_team e) None /\
      rk_wins e = count (is_win (rk_team e)) (completed_games mock_week_2_schedule) /\
      rk_losses e = count (is_loss (rk_team e)) (completed_games mock_week_2_schedule) /\
      rk_ties e = count (is_tie (rk_team e)) (completed_games mock_week_2_schedule).
Proof.
  apply (ranking_entry_carries_record mock_week_2_schedule).
  repeat constructor.
Defined.

(** X9: the three score fields of every entry are whole numbers: a
    non-negative [weighted_wins], a non-positive [weighted_losses], and their
    difference as [total], which therefore lies between the two. *)
Theorem ranking_entry_scores_integral (schedule : DataFrame) :
  exists rankings : list TeamRanking,
    calculate_all_rankings schedule = Some rankings /\
    forall e, In e rankings ->
      exists n m : Z,
        0 <= n /\ 0 <= m /\
        (rk_weighted_wins e == inject_Z n)%Q /\
        (rk_weighted_losses e == inject_Z (- m))%Q /\
        (rk_total e == inject_Z (n - m))%Q /\
        (rk_weighted_losses e <= rk_total e <= rk_weighted_wins e)%Q.
Proof.
  eexists. split; [apply rankings_over_returns|].
  intros e He. apply ranking_entries in He. destruct He as [_ He].
  set (team := rk_team e) in *.
  exists (sum_Z (map (opponent_wins schedule team) (games_won schedule team))),
         (sum_Z (map (opponent_losses schedule team) (games_lost schedule team))).
  assert (Hn : 0 <= sum_Z (map (opponent_wins schedule team)
                               (games_won schedule team))).
  { apply sum_Z_nonneg. rewrite Forall_map. apply Forall_forall. intros g _.
    unfold opponent_wins. rewrite get_team_record_counts. apply count_nonneg. }
  assert (Hm : 0 <= sum_Z (map (opponent_losses schedule team)
                               (games_lost schedule team))).
  { apply sum_Z_nonneg. rewrite Forall_map. apply Forall_forall. intros g _.
    unfold opponent_losses. rewrite get_team_record_counts. apply count_nonneg. }
  rewrite He. unfold ranking_entry, calculate_total_score.
  cbn [rk_weighted_wins rk_weighted_losses rk_total].
  rewrite calculate_weighted_wins_sum, calculate_weighted_losses_sum.
  rewrite Qplus_inject_Z, !round_inject_Z.
  fold (games_won schedule team) (games_lost schedule team).
  repeat split; trivial; try reflexivity;
    try (rewrite <- Zle_Qle; lia).
Qed.

(** ** League totals *)

Lemma sum_Z_map_add {A : Type} (f h : A -> Z) (l : list A) :
  sum_Z (map (fun x => f x + h x) l) = sum_Z (map f l) + sum_Z (map h l).
Proof. induction l as [|x l IH]; simpl; lia. Qed.

Lemma sum_Z_map_zero {A : Type} (l : list A) :
  sum_Z (map (fun _ => 0) l) = 0.
Proof. induction l as [|x l IH]; simpl; lia. Qed.

(** Counting per team and adding up is counting per game and adding up. *)
Lemma sum_count_exchange (p : string -> Game -> bool) (teams : list string)
    (games : DataFrame) :
  sum_Z (map (fun t => count (p t) games) teams) =
  sum_Z (map (fun g => sum_Z (map (fun t => Z.b2z (p t g)) teams)) games).
Proof.
  induction games as [|g l IH]; simpl.
  - apply sum_Z_map_zero.
  - rewrite <- IH, <- sum_Z_map_add. f_equal.
    apply map_ext. intro t. apply count_cons.
Qed.

(** A name occurs once in a duplicate-free list that holds it. *)
Lemma sum_indicator (x : string) (teams : list string) :
  NoDup teams -> In x teams ->
  sum_Z (map (fun t => Z.b2z (String.eqb x t)) teams) = 1.
Proof.
  induction 1 as [|y l Hy Hl IH]; intro Hin; [contradiction|].
  simpl. destruct (String.eqb_spec x y) as [->|N].
  - assert (E : sum_Z (map (fun t => Z.b2z (String.eqb y t)) l) = 0).
    { clear IH Hin Hl. induction l as [|z l IH]; simpl; [reflexivity|].
      destruct (String.eqb_spec y z) as [->|_].
      - exfalso. apply Hy. now left.
      - rewrite IH; [reflexivity|]. intro H. apply Hy. now right. }
    rewrite E. reflexivity.
  - destruct Hin as [->|Hin]; [congruence|]. rewrite (IH Hin). reflexivity.
Qed.

Lemma ranking_field_sum (schedule : DataFrame) (field : TeamRanking -> Z) :
  sum_Z (map field
           (Py.sort_desc rk_total
              (map (ranking_entry schedule) (Py.sorted (team_set schedule))))) =
  sum_Z (map (fun t => field (ranking_entry schedule t)) (team_set schedule)).
Proof.
  apply sum_Z_permutation.
  rewrite (Permutation_map field (sort_desc_perm rk_total _)), map_map.
  apply Permutation_map, sorted_perm.
Qed.

Lemma sum_Z_map_ext_in {A : Type} (f h : A -> Z) (l : list A) :
  (forall x, In x l -> f x = h x) -> sum_Z (map f l) = sum_Z (map h l).
Proof. intro H. f_equal. now apply map_ext_in. Qed.

Lemma completed_sides_ranked (schedule : DataFrame) (g : Game) :
  In g (get_game_results schedule) ->
  In (home_team g) (team_set schedule) /\ In (away_team g) (team_set schedule).
Proof. intro Hg. split; apply team_set_in; exists g; auto. Qed.

(** X10: over a whole ranking the wins add up to the losses: both sums are
    the number of completed games with a non-zero result.  When no game pairs
    a team with itself, the ties add up to twice the number of completed
    games with result zero. *)
Theorem league_totals (schedule : DataFrame) :
  exists rankings : list TeamRanking,
    calculate_all_rankings schedule = Some rankings /\
    sum_Z (map rk_wins rankings) = count decided (get_game_results schedule) /\
    sum_Z (map rk_losses rankings) = count decided (get_game_results schedule) /\
    ((forall g, In g schedule -> home_team g <> away_team g) ->
     sum_Z (map rk_ties rankings) = 2 * count level (get_game_results schedule)).
Proof.
  eexists. split; [apply rankings_over_returns|].
  pose proof (team_set_nodup schedule) as Hnd.
  assert (Hone : forall g (side : Game -> string),
             In (side g) (team_set schedule) ->
             sum_Z (map (fun t => Z.b2z (String.eqb (side g) t))
                        (team_set schedule)) = 1).
  { intros g side Hin. now apply sum_indicator. }
  assert (Hcount : forall (p : Game -> bool) (l : DataFrame),
             count p l = sum_Z (map (fun g => Z.b2z (p g)) l)).
  { intros p l. induction l as [|g l IH]; [reflexivity|].
    rewrite count_cons, IH. reflexivity. }
  rewrite !ranking_field_sum. unfold ranking_entry.
  cbn [rk_wins rk_losses rk_ties].
  rewrite (sum_Z_map_ext_in _
             (fun t => count (is_win t) (get_game_results schedule)))
    by (intros t _; now rewrite get_team_record_counts, games_through_filter).
  rewrite (sum_Z_map_ext_in
             (fun t => losses (get_team_record schedule t None))
             (fun t => count (is_loss t) (get_game_results schedule)))
    by (intros t _; now rewrite get_team_record_counts, games_through_filter).
  rewrite (sum_Z_map_ext_in
             (fun t => ties (get_team_record schedule t None))
             (fun t => count (is_tie t) (get_game_results schedule)))
    by (intros t _; now rewrite get_team_record_counts, games_through_filter).
  rewrite !sum_count_exchange, !Hcount.
  split; [|split].
  - apply sum_Z_map_ext_in. intros g Hg.
    destruct (completed_sides_ranked schedule g Hg) as [Hh Ha].
    unfold is_win, decided. destruct (result g) as [r|]; [|apply sum_Z_map_zero].
    destruct (Z.gtb_spec r 0); destruct (Z.ltb_spec r 0);
      destruct (Z.eqb_spec r 0); try lia; simpl negb; simpl Z.b2z.
    + rewrite <- (Hone g home_team Hh). apply sum_Z_map_ext_in. intros t _.
      now rewrite andb_true_r, andb_false_r, orb_false_r.
    + rewrite <- (Hone g away_team Ha). apply sum_Z_map_ext_in. intros t _.
      now rewrite andb_true_r, andb_false_r.
    + rewrite <- (sum_Z_map_zero (team_set schedule)).
      apply sum_Z_map_ext_in. intros t _. now rewrite !andb_false_r.
  - apply sum_Z_map_ext_in. intros g Hg.
    destruct (completed_sides_ranked schedule g Hg) as [Hh Ha].
    unfold is_loss, decided. destruct (result g) as [r|]; [|apply sum_Z_map_zero].
    destruct (Z.gtb_spec r 0); destruct (Z.ltb_spec r 0);
      destruct (Z.eqb_spec r 0); try lia; simpl negb; simpl Z.b2z.
    + rewrite <- (Hone g away_team Ha). apply sum_Z_map_ext_in. intros t _.
      now rewrite andb_true_r, andb_false_r.
    + rewrite <- (Hone g home_team Hh). apply sum_Z_map_ext_in. intros t _.
      now rewrite andb_true_r, andb_false_r, orb_false_r.
    + rewrite <- (sum_Z_map_zero (team_set schedule)).
      apply sum_Z_map_ext_in. intros t _. now rewrite !andb_false_r.
  - intro Hself.
    assert (E : forall l : DataFrame,
               2 * sum_Z (map (fun g => Z.b2z (level g)) l) =
               sum_Z (map (fun g => 2 * Z.b2z (level g)) l)).
    { unfold sum_Z. induction l as [|g l IH]; cbn [map fold_right]; lia. }
    rewrite E. apply sum_Z_map_ext_in. intros g Hg.
    destruct (completed_sides_ranked schedule g Hg) as [Hh Ha].
    assert (Hne : home_team g <> away_team g).
    { apply Hself. rewrite get_game_results_filter, filter_In in Hg. tauto. }
    unfold is_tie, level. destruct (result g) as [r|];
      [|rewrite sum_Z_map_zero; reflexivity].
    destruct (Z.eqb_spec r 0); simpl Z.b2z.
    + rewrite (sum_Z_map_ext_in _
                 (fun t => Z.b2z (String.eqb (home_team g) t) +
                           Z.b2z (String.eqb (away_team g) t))).
      * rewrite sum_Z_map_add, (Hone g home_team Hh), (Hone g away_team Ha).
        reflexivity.
      * intros t _. rewrite andb_true_r.
        destruct (String.eqb_spec (home_team g) t);
          destruct (String.eqb_spec (away_team g) t); simpl; congruence.
    + rewrite (sum_Z_map_ext_in _ (fun _ => 0)).
      * now rewrite sum_Z_map_zero.
      * intros t _. now rewrite andb_false_r.
Qed.

Lemma league_totals_witness :
  exists rankings : list TeamRanking,
    calculate_all_rankings mock_week_2_schedule = Some rankings /\
    sum_Z (map rk_ties rankings) =
      2 * count level (get_game_results mock_week_2_schedule).
Proof.
  destruct (league_totals mock_week_2_schedule) as (rankings & Hr & _ & _ & Ht).
  exists rankings. split; [exact Hr|]. apply Ht.
  intros g Hg. simpl in Hg.
  destruct Hg as [<-|[<-|[<-|[<-|[]]]]]; simpl; discriminate.
Defined.

Lemma count_pos (p : Game -> bool) (l : DataFrame) (g : Game) :
  In g l -> p g = true -> 1 <= count p l.
Proof.
  intros Hg Hp. induction l as [|x l IH]; [contradiction|].
  rewrite count_cons. pose proof (count_nonneg p l) as H0.
  destruct Hg as [->|Hg].
  - rewrite Hp. simpl Z.b2z. lia.
  - specialize (IH Hg). destruct (p x); simpl Z.b2z; lia.
Qed.

(** X11: when every completed game has a result, every ranked team has at
    least one counted game, so that its win percentage is a quotient and not
    the 0.0 of the zero-games guard. *)
Theorem ranked_team_has_played (schedule : DataFrame) :
  (forall g, In g schedule -> home_score g <> None -> result g <> None) ->
  exists rankings : list TeamRanking,
    calculate_all_rankings schedule = Some rankings /\
    forall e, In e rankings -> 1 <= rk_wins e + rk_losses e + rk_ties e.
Proof.
  intro Hres. eexists. split; [apply rankings_over_returns|].
  intros e He. apply ranking_entries in He. destruct He as [Hteam He].
  rewrite He. unfold ranking_entry. cbn [rk_wins rk_losses rk_ties].
  rewrite get_team_record_counts, games_through_filter. simpl.
  apply team_set_in in Hteam. destruct Hteam as (g & Hg & Hside).
  pose proof (count_nonneg (is_win (rk_team e)) (get_game_results schedule)).
  pose proof (count_nonneg (is_loss (rk_team e)) (get_game_results schedule)).
  pose proof (count_nonneg (is_tie (rk_team e)) (get_game_results schedule)).
  assert (Hr : result g <> None).
  { rewrite get_game_results_filter, filter_In in Hg. destruct Hg as [Hin Hs].
    apply Hres; trivial. unfold home_scored in Hs.
    destruct (home_score g); congruence. }
  assert (Hone : is_win (rk_team e) g = true \/ is_loss (rk_team e) g = true \/
                 is_tie (rk_team e) g = true).
  { unfold is_win, is_loss, is_tie. destruct (result g) as [r|]; [|congruence].
    destruct Hside as [E|E]; rewrite E, String.eqb_refl; simpl;
      destruct (Z.gtb_spec r 0); destruct (Z.ltb_spec r 0);
      destruct (Z.eqb_spec r 0); try lia; rewrite ?orb_true_r; auto. }
  destruct Hone as [Hp|[Hp|Hp]];
    pose proof (count_pos _ _ g Hg Hp); lia.
Qed.

Lemma ranked_team_has_played_witness :
  exists rankings : list TeamRanking,
    calculate_all_rankings mock_week_2_schedule = Some rankings /\
    forall e, In e rankings -> 1 <= rk_wins e + rk_losses e + rk_ties e.
Proof.
  apply (ranked_team_has_played mock_week_2_schedule).
  intros g Hg _. simpl in Hg.
  destruct Hg as [<-|[<-|[<-|[<-|[]]]]]; simpl; discriminate.
Defined.

(** ** One more game *)

(** X12: recording one more game between two different teams gives one
    side what it takes from the other: the wins it adds to a side's record
    are the losses it adds to the opponent's, and the other way round, and
    both get the same number of ties. *)
Theorem one_more_game_mirrors (schedule : DataFrame) (g : Game) (team : string) :
  home_team g <> away_team g ->
  home_team g = team \/ away_team g = team ->
  let before t := get_team_record schedule t None in
  let after t := get_team_record (schedule ++ [g]) t None in
  let opp := opponent team g in
  wins (after team) - wins (before team) = losses (after opp) - losses (before opp) /\
  losses (after team) - losses (before team) = wins (after opp) - wins (before opp) /\
  ties (after team) - ties (before team) = ties (after opp) - ties (before opp).
Proof.
  intros Hne Hside. cbv zeta beta.
  rewrite !get_team_record_counts, !games_through_app. cbn [wins losses ties].
  rewrite !count_app.
  assert (E : forall p q : Game -> bool, p g = q g ->
                count p (games_through [g] None) = count q (games_through [g] None)).
  { intros p q Hpq. apply count_ext. intros g' Hg'.
    rewrite games_through_filter, get_game_results_filter in Hg'.
    simpl in Hg'. destruct (home_scored g); [|contradiction].
    destruct Hg' as [<-|[]]. exact Hpq. }
  assert (Hm : is_win team g = is_loss (opponent team g) g /\
               is_loss team g = is_win (opponent team g) g /\
               is_tie team g = is_tie (opponent team g) g).
  { unfold is_win, is_loss, is_tie, opponent.
    destruct (result g) as [r|]; [|now repeat split].
    destruct (String.eqb_spec (home_team g) team) as [Eh|Nh].
    - assert (Na : String.eqb (away_team g) team = false)
        by (apply String.eqb_neq; congruence).
      assert (Nh' : String.eqb (home_team g) (away_team g) = false)
        by (now apply String.eqb_neq).
      rewrite Na, Nh', String.eqb_refl. simpl.
      repeat split; now rewrite ?orb_false_r.
    - destruct Hside as [Eh|Ea]; [contradiction|]. subst team.
      assert (Na' : String.eqb (away_team g) (home_team g) = false)
        by (apply String.eqb_neq; congruence).
      rewrite Na', !String.eqb_refl. simpl.
      repeat split; now rewrite ?orb_false_r, ?orb_true_r. }
  destruct Hm as (H1 & H2 & H3).
  rewrite (E _ _ H1), (E _ _ H2), (E _ _ H3). lia.
Qed.

Lemma one_more_game_mirrors_witness :
  let g := played 3 "KC" "NYJ" 30 10 in
  let before t := get_team_record mock_week_2_schedule t None in
  let after t := get_team_record (mock_week_2_schedule ++ [g]) t None in
  let opp := opponent "KC" g in
  wins (after "KC"%string) - wins (before "KC"%string) =
    losses (after opp) - losses (before opp) /\
  losses (after "KC"%string) - losses (before "KC"%string) =
    wins (after opp) - wins (before opp) /\
  ties (after "KC"%string) - ties (before "KC"%string) =
    ties (after opp) - ties (before opp).
Proof.
  apply (one_more_game_mirrors mock_week_2_schedule
           (played 3 "KC" "NYJ" 30 10) "KC").
  - simpl. discriminate.
  - left. reflexivity.
Defined.

(** ** Validation and the run *)

(** X13: [validate_data] accepts a frame exactly when each of the six
    column names the ranking reads is among its columns; the rows, other
    columns and the order of the columns play no part. *)
Theorem validate_data_iff (schedule : Fetched) :
  validate_data schedule = true <->
  In "week"%string (columns schedule) /\
  In "home_team"%string (columns schedule) /\
  In "away_team"%string (columns schedule) /\
  In "home_score"%string (columns schedule) /\
  In "away_score"%string (columns schedule) /\
  In "result"%string (columns schedule).
Proof.
  rewrite <- !mem_in. unfold validate_data, required_fields. simpl filter.
  destruct (Py.mem "week" (columns schedule));
    destruct (Py.mem "home_team" (columns schedule));
    destruct (Py.mem "away_team" (columns schedule));
    destruct (Py.mem "home_score" (columns schedule));
    destruct (Py.mem "away_score" (columns schedule));
    destruct (Py.mem "result" (columns schedule));
    simpl; intuition congruence.
Qed.

(** X14: a run of [main] never ends in an exception of the ranking
    computation.  It hands a snapshot to the writer exactly when the fetch
    gave a frame that passes validation and whose current week is at least 2;
    that snapshot carries the clock reading, the current week, the season
    constant and the ranking of the fetched rows, and the run is [Saved] or
    [SaveFailed] as the writer reports. *)
Theorem main_outcomes (fetched : option Fetched) (now : string)
    (save_json_snapshot : Snapshot -> Z -> bool) :
  let outcome := main fetched now save_json_snapshot in
  outcome <> Raised /\
  (snapshot_of outcome <> None <->
   exists schedule, fetched = Some schedule /\ validate_data schedule = true /\
                    2 <= get_current_week (rows schedule)) /\
  (forall schedule week_data,
      fetched = Some schedule -> snapshot_of outcome = Some week_data ->
      sn_timestamp week_data = now /\
      sn_week week_data = get_current_week (rows schedule) /\
      sn_season week_data = CURRENT_SEASON /\
      calculate_all_rankings (rows schedule) = Some (sn_rankings week_data) /\
      outcome = if save_json_snapshot week_data (sn_week week_data)
                then Saved week_data else SaveFailed week_data).
Proof.
  cbv zeta. unfold main. destruct fetched as [schedule|].
  2:{ repeat split; try discriminate.
      - intro H. now contradiction H.
      - intros (s & E & _). discriminate. }
  destruct (validate_data schedule) eqn:Hv; simpl negb; cbv iota.
  2:{ repeat split; try discriminate.
      - intro H. now contradiction H.
      - intros (s & E & Hv' & _). injection E as <-. congruence. }
  destruct (Z.ltb_spec (get_current_week (rows schedule)) 2) as [Hlt|Hge].
  { repeat split; try discriminate.
    - intro H. now contradiction H.
    - intros (s & E & _ & Hw). injection E as <-. lia. }
  unfold calculate_all_rankings. rewrite rankings_over_returns.
  set (rankings := Py.sort_desc rk_total _).
  set (week_data := format_week_data now (get_current_week (rows schedule)) rankings).
  assert (Hsnap : snapshot_of
            (if save_json_snapshot week_data (get_current_week (rows schedule))
             then Saved week_data else SaveFailed week_data) = Some week_data).
  { destruct (save_json_snapshot _ _); reflexivity. }
  split; [destruct (save_json_snapshot _ _); discriminate|]. split.
  - rewrite Hsnap. split; [|discriminate].
    intros _. exists schedule. now repeat split.
  - intros s d E Hd. injection E as <-. rewrite Hsnap in Hd. injection Hd as <-.
    split; [reflexivity|]. split; [reflexivity|]. split; [reflexivity|].
    split; [|reflexivity].
    unfold week_data. now rewrite rankings_over_returns, format_week_data_rankings.
Qed.

(** ** The fetch *)

(** X16: [fetch_nfl_data] returns a frame exactly when, within the three
    attempts, the first call of the import that does not raise returns a
    non-empty frame; it returns that frame.  An answer of [None] or an empty
    frame ends the fetch without a retry. *)
Theorem fetch_nfl_data_succeeds_iff (import_schedules : Z -> nat -> ImportOutcome)
    (season : Z) (schedule : Fetched) :
  fst (fetch_nfl_data import_schedules season) = Some schedule <->
  exists k : nat,
    (k < 3)%nat /\
    (forall j, (j < k)%nat -> import_schedules season j = ImportRaises) /\
    import_schedules season k = ImportFrame schedule /\
    frame_empty schedule = false.
Proof.
  unfold fetch_nfl_data, py_range, MAX_RETRIES. simpl. split.
  - destruct (import_schedules season 0%nat) as [| |s0] eqn:E0; simpl;
      try discriminate.
    + destruct (import_schedules season 1%nat) as [| |s1] eqn:E1; simpl;
        try discriminate.
      * destruct (import_schedules season 2%nat) as [| |s2] eqn:E2; simpl;
          try discriminate.
        destruct (frame_empty s2) eqn:F2; simpl; try discriminate.
        intro H. injection H as <-. exists 2%nat. repeat split; trivial; try lia.
        intros j Hj. destruct j as [|[|j]]; trivial; lia.
      * destruct (frame_empty s1) eqn:F1; simpl; try discriminate.
        intro H. injection H as <-. exists 1%nat. repeat split; trivial; try lia.
        intros j Hj. destruct j as [|j]; trivial; lia.
    + destruct (frame_empty s0) eqn:F0; simpl; try discriminate.
      intro H. injection H as <-. exists 0%nat. repeat split; trivial; lia.
  - intros (k & Hk & Hraise & Hframe & Hne).
    destruct k as [|[|[|k]]]; [| | |lia].
    + rewrite Hframe, Hne. reflexivity.
    + rewrite (Hraise 0%nat) by lia. simpl. rewrite Hframe, Hne. reflexivity.
    + rewrite (Hraise 0%nat) by lia. simpl. rewrite (Hraise 1%nat) by lia.
      simpl. rewrite Hframe, Hne. reflexivity.
Qed.

(** X17: a fetch calls the import at least once and at most three times,
    and a further call only follows a call that raised.  It sleeps between
    calls only: 2 seconds after the first failure and 4 after the second,
    never after the last call, so at most 6 seconds in all. *)
Theorem fetch_nfl_data_effort (import_schedules : Z -> nat -> ImportOutcome)
    (season : Z) :
  let log := snd (fetch_nfl_data import_schedules season) in
  (1 <= import_calls log <= 3)%nat /\
  (forall j, (S j < import_calls log)%nat ->
             import_schedules season j = ImportRaises) /\
  sleeps log = firstn (import_calls log - 1) [2; 4] /\
  sum_Z (sleeps log) <= 6.
Proof.
  cbv zeta. unfold fetch_nfl_data, py_range, MAX_RETRIES, RETRY_DELAY. simpl.
  assert (H0 : forall j, (S j < 1)%nat ->
                         import_schedules season j = ImportRaises)
    by (intros j Hj; lia).
  destruct (import_schedules season 0%nat) as [| |s0] eqn:E0; simpl.
  - assert (H1 : forall j, (S j < 2)%nat ->
                           import_schedules season j = ImportRaises).
    { intros j Hj. destruct j as [|j]; [exact E0 | lia]. }
    destruct (import_schedules season 1%nat) as [| |s1] eqn:E1; simpl.
    + destruct (import_schedules season 2%nat) as [| |s2] eqn:E2; simpl;
        [| |destruct (frame_empty s2)]; simpl; repeat split; try lia;
        intros j Hj; destruct j as [|[|j]]; trivial; lia.
    + repeat split; try lia; exact H1.
    + destruct (frame_empty s1); simpl; repeat split; try lia; exact H1.
  - repeat split; try lia; exact H0.
  - destruct (frame_empty s0); simpl; repeat split; try lia; exact H0.
Qed.

(** ** When a weighted score is zero *)



(** ** A season in its first round *)

Lemma sort_desc_constant {A : Type} (key : A -> Q) (c : Q) (l : list A) :
  Forall (fun x => (key x == c)%Q) l -> Py.sort_desc key l = l.
Proof.
  induction 1 as [|x l Hx Hl IH]; [reflexivity|].
  simpl. rewrite IH. destruct Hl as [|y l' Hy Hl']; [reflexivity|].
  simpl. assert (E : (key x ?= key y)%Q = Eq).
  { apply Qeq_alt. now rewrite Hx, Hy. }
  now rewrite E.
Qed.

Lemma outcome_mirror (team : string) (g : Game) :
  home_team g <> away_team g -> involves team g = true ->
  is_win team g = is_loss (opponent team g) g /\
  is_loss team g = is_win (opponent team g) g.
Proof.
  intros Hne Hinv. unfold involves in Hinv.
  unfold is_win, is_loss, opponent.
  destruct (result g) as [r|]; [|now split].
  destruct (String.eqb_spec (home_team g) team) as [Eh|Nh].
  - assert (Na : String.eqb (away_team g) team = false)
      by (apply String.eqb_neq; congruence).
    assert (Nh' : String.eqb (home_team g) (away_team g) = false)
      by (now apply String.eqb_neq).
    rewrite Na, Nh', String.eqb_refl. simpl.
    split; now rewrite ?orb_false_r.
  - simpl in Hinv. apply String.eqb_eq in Hinv. subst team.
    assert (Na' : String.eqb (away_team g) (home_team g) = false)
      by (apply String.eqb_neq; congruence).
    rewrite Na', !String.eqb_refl. simpl.
    split; now rewrite ?orb_false_r.
Qed.

Lemma count_sum_le (p q r : Game -> bool) (l : DataFrame) :
  (forall g, In g l -> Z.b2z (p g) + Z.b2z (q g) <= Z.b2z (r g)) ->
  count p l + count q l <= count r l.
Proof.
  intro H. induction l as [|g l IH]; [reflexivity|].
  rewrite !count_cons.
  pose proof (H g (or_introl eq_refl)) as Hg.
  assert (IH' : count p l + count q l <= count r l).
  { apply IH. intros g' Hg'. apply H. now right. }
  lia.
Qed.

(** A team with at most one completed game, against another team, has a win
    or a loss but not both. *)
Lemma one_game_one_outcome (completed : DataFrame) (team : string) :
  (forall g, In g completed -> home_team g <> away_team g) ->
  count (involves team) completed <= 1 ->
  count (is_win team) completed + count (is_loss team) completed <= 1.
Proof.
  intros Hself Hone. etransitivity; [|exact Hone].
  apply count_sum_le. intros g Hg. specialize (Hself g Hg).
  unfold is_win, is_loss, involves. destruct (result g) as [r|].
  - destruct (String.eqb_spec (home_team g) team);
      destruct (String.eqb_spec (away_team g) team); try congruence; simpl;
      destruct (Z.gtb_spec r 0); destruct (Z.ltb_spec r 0); simpl; lia.
  - destruct (String.eqb (home_team g) team || String.eqb (away_team g) team);
      simpl; lia.
Qed.

Lemma sum_Z_map_all_zero {A : Type} (f : A -> Z) (l : list A) :
  (forall x, In x l -> f x = 0) -> sum_Z (map f l) = 0.
Proof.
  intro H. induction l as [|x l IH]; simpl; [reflexivity|].
  rewrite (H x (or_introl eq_refl)), IH; [reflexivity|].
  intros y Hy. apply H. now right.
Qed.

(** X19: while every team has at most one completed game, each against
    another team, no win or loss carries weight: every entry has weighted
    wins, weighted losses and total 0.0, and the ranking lists the teams in
    alphabetical order. *)
Theorem first_round_ranking_is_alphabetical (schedule : DataFrame) :
  (forall g, In g schedule -> home_team g <> away_team g) ->
  (forall team, count (involves team) (get_game_results schedule) <= 1) ->
  exists rankings : list TeamRanking,
    calculate_all_rankings schedule = Some rankings /\
    (forall e, In e rankings ->
       (rk_weighted_wins e == 0)%Q /\ (rk_weighted_losses e == 0)%Q /\
       (rk_total e == 0)%Q) /\
    map rk_team rankings = Py.sorted (team_set schedule).
Proof.
  intros Hself Hone.
  assert (Hself' : forall g, In g (get_game_results schedule) ->
                             home_team g <> away_team g).
  { intros g Hg. apply Hself.
    rewrite get_game_results_filter, filter_In in Hg. tauto. }
  assert (Hw : forall team, calculate_weighted_wins schedule team = inject_Z 0).
  { intro team. rewrite calculate_weighted_wins_sum. f_equal.
    apply sum_Z_map_all_zero. intros g Hg.
    unfold games_won in Hg. apply filter_In in Hg. destruct Hg as [Hg Hwin].
    unfold opponent_wins. rewrite get_team_record_counts, games_through_filter.
    simpl.
    destruct (outcome_mirror team g (Hself' g Hg)) as [Hm _].
    { apply is_win_involves. now left. }
    rewrite Hwin in Hm.
    pose proof (count_pos (is_loss (opponent team g)) _ g Hg (eq_sym Hm)).
    pose proof (one_game_one_outcome _ (opponent team g) Hself'
                  (Hone (opponent team g))).
    pose proof (count_nonneg (is_win (opponent team g))
                  (get_game_results schedule)).
    lia. }
  assert (Hl : forall team, calculate_weighted_losses schedule team = inject_Z 0).
  { intro team. rewrite calculate_weighted_losses_sum. f_equal.
    rewrite sum_Z_map_all_zero; [reflexivity|]. intros g Hg.
    unfold games_lost in Hg. apply filter_In in Hg. destruct Hg as [Hg Hloss].
    unfold opponent_losses. rewrite get_team_record_counts, games_through_filter.
    simpl.
    destruct (outcome_mirror team g (Hself' g Hg)) as [_ Hm].
    { apply is_win_involves. now right. }
    rewrite Hloss in Hm.
    pose proof (count_pos (is_win (opponent team g)) _ g Hg (eq_sym Hm)).
    pose proof (one_game_one_outcome _ (opponent team g) Hself'
                  (Hone (opponent team g))).
    pose proof (count_nonneg (is_loss (opponent team g))
                  (get_game_results schedule)).
    lia. }
  assert (Hzero : forall team,
             (rk_weighted_wins (ranking_entry schedule team) == 0)%Q /\
             (rk_weighted_losses (ranking_entry schedule team) == 0)%Q /\
             (rk_total (ranking_entry schedule team) == 0)%Q).
  { intro team. unfold ranking_entry, calculate_total_score.
    cbn [rk_weighted_wins rk_weighted_losses rk_total].
    rewrite Hw, Hl, Qplus_inject_Z, !round_inject_Z. now repeat split. }
  assert (Hsort : Py.sort_desc rk_total
                    (map (ranking_entry schedule) (Py.sorted (team_set schedule))) =
                  map (ranking_entry schedule) (Py.sorted (team_set schedule))).
  { apply (sort_desc_constant rk_total 0%Q). rewrite Forall_map.
    apply Forall_forall. intros team _. apply Hzero. }
  eexists. split; [apply rankings_over_returns|]. rewrite Hsort. split.
  - intros e He. apply in_map_iff in He. destruct He as (team & <- & _).
    apply Hzero.
  - rewrite map_map. simpl. apply map_id.
Qed.

Lemma first_round_ranking_is_alphabetical_witness :
  exists rankings : list TeamRanking,
    calculate_all_rankings mock_schedule_incomplete = Some rankings /\
    (forall e, In e rankings ->
       (rk_weighted_wins e == 0)%Q /\ (rk_weighted_losses e == 0)%Q /\
       (rk_total e == 0)%Q) /\
    map rk_team rankings = Py.sorted (team_set mock_schedule_incomplete).
Proof.
  apply (first_round_ranking_is_alphabetical mock_schedule_incomplete).
  - intros g Hg. simpl in Hg.
    destruct Hg as [<-|[<-|[<-|[<-|[]]]]]; simpl; discriminate.
  - intro team.
    change (get_game_results mock_schedule_incomplete)
      with [played 1 "KC" "BAL" 27 20; played 1 "BUF" "NYJ" 24 17].
    rewrite !count_cons. unfold involves, count, played.
    cbn [home_team away_team filter List.length].
    destruct (String.eqb_spec "KC" team) as [<-|_]; [vm_compute; discriminate|].
    destruct (String.eqb_spec "BAL" team) as [<-|_]; [vm_compute; discriminate|].
    destruct (String.eqb_spec "BUF" team) as [<-|_]; [vm_compute; discriminate|].
    destruct (String.eqb_spec "NYJ" team) as [<-|_]; vm_compute; discriminate.
Defined.

(** ** The week bound where it is applied *)

(** X21: for every bound other than 0 the record counts exactly the
    completed games with [week <= through_week], by the three outcome
    conditions; without a bound it counts all completed games. *)
Theorem get_team_record_respects_bound (schedule : DataFrame) (team : string)
    (through_week : option Z) :
  through_week <> Some 0 ->
  let counted := filter (in_range through_week) (get_game_results schedule) in
  get_team_record schedule team through_week =
    mkRecord (count (is_win team) counted) (count (is_loss team) counted)
             (count (is_tie team) counted).
Proof. intro Hw. now apply get_team_record_through_week. Qed.

Lemma get_team_record_respects_bound_witness :
  let counted :=
    filter (in_range (Some (-1))) (get_game_results mock_week_2_schedule) in
  get_team_record mock_week_2_schedule "KC" (Some (-1)) =
    mkRecord (count (is_win "KC") counted) (count (is_loss "KC") counted)
             (count (is_tie "KC") counted).
Proof.
  apply (get_team_record_respects_bound mock_week_2_schedule "KC" (Some (-1))).
  discriminate.
Defined.

Lemma few_completed_weeks_witness :
  get_current_week mock_schedule_incomplete < 2.
Proof.
  apply (few_completed_weeks mock_schedule_incomplete).
  - intros g Hg w Hw.
    change (get_game_results mock_schedule_incomplete)
      with [played 1 "KC" "BAL" 27 20; played 1 "BUF" "NYJ" 24 17] in Hg.
    assert (E : w = 1).
    { destruct Hg as [<-|[<-|[]]]; simpl in Hw; lia. }
    subst w. vm_compute. now left.
  - vm_compute. repeat constructor.
Defined.
